(** * The micro API gateway ([api/api.go]): startup wiring of [run]

    A shallow embedding of [run] from [src/api/api.go]: the package-level
    configuration variables, their override from the command line, the
    ACME/TLS option block, the gorilla/mux route table, the reverse plugin
    wrapping loop and the start/run/stop sequence.  Effects (logging,
    fatal exits, calls into the HTTP server and the backend service) are
    recorded as events of a trace in a small state-and-exit monad. *)

From Stdlib Require Import String Ascii List ZArith Bool Lia.
Import ListNotations.
Local Open Scope string_scope.

(** ** Go strings *)

Module GoStrings.

(** [len(s)] *)
Definition len (s : string) : nat := String.length s.

(** [s[i:]] for [i <= len s] *)
Fixpoint drop (i : nat) (s : string) : string :=
  match i, s with
  | O, _ => s
  | S j, String _ t => drop j t
  | S _, EmptyString => EmptyString
  end.

(** [s[:i]] for [i <= len s] *)
Fixpoint take (i : nat) (s : string) : string :=
  match i, s with
  | O, _ => EmptyString
  | S j, String c t => String c (take j t)
  | S _, EmptyString => EmptyString
  end.

(** [strings.HasSuffix]:
    [len(s) >= len(suffix) && s[len(s)-len(suffix):] == suffix] *)
Definition HasSuffix (s suffix : string) : bool :=
  (len suffix <=? len s)%nat && String.eqb (drop (len s - len suffix) s) suffix.

(** [strings.TrimSuffix]: [s] without the trailing [suffix], or [s]
    itself when it does not end in [suffix]. *)
Definition TrimSuffix (s suffix : string) : string :=
  if HasSuffix s suffix then take (len s - len suffix) s else s.

(** [len(s) > 0] *)
Definition nonempty (s : string) : bool := (0 <? len s)%nat.

End GoStrings.
Import GoStrings.

(** ** Package-level variables (api.go lines 45-60) *)

(** [acme.LetsEncryptProductionCA], a constant of go-micro's acme package. *)
Definition LetsEncryptProductionCA : string :=
  "https://acme-v02.api.letsencrypt.org/directory".

Record Globals := mkGlobals {
  Name : string;
  Address : string;
  Handler : string;
  Resolver : string;
  RPCPath : string;
  APIPath : string;
  ProxyPath : string;
  Namespace : string;
  Type_ : string;
  HeaderPrefix : string;
  EnableRPC : bool;
  ACMEProvider : string;
  ACMEChallengeProvider : string;
  ACMECA : string
}.

(** The values the variables are initialised to. *)
Definition initGlobals : Globals := {|
  Name := "go.micro.api";
  Address := ":8080";
  Handler := "meta";
  Resolver := "micro";
  RPCPath := "/rpc";
  APIPath := "/";
  ProxyPath := "/{service:[a-zA-Z0-9]+}";
  Namespace := "go.micro";
  Type_ := "api";
  HeaderPrefix := "X-Micro-";
  EnableRPC := false;
  ACMEProvider := "autocert";
  ACMEChallengeProvider := "cloudflare";
  ACMECA := LetsEncryptProductionCA
|}.

(** ** The command-line context ([*cli.Context]) *)

Record Context := mkContext {
  ctx_String : string -> string;
  ctx_Bool : string -> bool;
  ctx_Int : string -> Z;
  ctx_AppVersion : string
}.

(** ** Flag overrides (api.go lines 66-91)

    Each [if len(ctx.String(flag)) > 0 { Var = ... }] in source order;
    [Type] is assigned before the namespace is trimmed with it. *)

Definition setName v g := mkGlobals v (Address g) (Handler g) (Resolver g) (RPCPath g)
  (APIPath g) (ProxyPath g) (Namespace g) (Type_ g) (HeaderPrefix g) (EnableRPC g)
  (ACMEProvider g) (ACMEChallengeProvider g) (ACMECA g).
Definition setAddress v g := mkGlobals (Name g) v (Handler g) (Resolver g) (RPCPath g)
  (APIPath g) (ProxyPath g) (Namespace g) (Type_ g) (HeaderPrefix g) (EnableRPC g)
  (ACMEProvider g) (ACMEChallengeProvider g) (ACMECA g).
Definition setHandler v g := mkGlobals (Name g) (Address g) v (Resolver g) (RPCPath g)
  (APIPath g) (ProxyPath g) (Namespace g) (Type_ g) (HeaderPrefix g) (EnableRPC g)
  (ACMEProvider g) (ACMEChallengeProvider g) (ACMECA g).
Definition setResolver v g := mkGlobals (Name g) (Address g) (Handler g) v (RPCPath g)
  (APIPath g) (ProxyPath g) (Namespace g) (Type_ g) (HeaderPrefix g) (EnableRPC g)
  (ACMEProvider g) (ACMEChallengeProvider g) (ACMECA g).
Definition setEnableRPC v g := mkGlobals (Name g) (Address g) (Handler g) (Resolver g)
  (RPCPath g) (APIPath g) (ProxyPath g) (Namespace g) (Type_ g) (HeaderPrefix g) v
  (ACMEProvider g) (ACMEChallengeProvider g) (ACMECA g).
Definition setACMEProvider v g := mkGlobals (Name g) (Address g) (Handler g) (Resolver g)
  (RPCPath g) (APIPath g) (ProxyPath g) (Namespace g) (Type_ g) (HeaderPrefix g)
  (EnableRPC g) v (ACMEChallengeProvider g) (ACMECA g).
Definition setType v g := mkGlobals (Name g) (Address g) (Handler g) (Resolver g)
  (RPCPath g) (APIPath g) (ProxyPath g) (Namespace g) v (HeaderPrefix g) (EnableRPC g)
  (ACMEProvider g) (ACMEChallengeProvider g) (ACMECA g).
Definition setNamespace v g := mkGlobals (Name g) (Address g) (Handler g) (Resolver g)
  (RPCPath g) (APIPath g) (ProxyPath g) v (Type_ g) (HeaderPrefix g) (EnableRPC g)
  (ACMEProvider g) (ACMEChallengeProvider g) (ACMECA g).

(** [if len(ctx.String(flag)) > 0 { ... }] *)
Definition whenSet (ctx : Context) (flag : string)
    (assign : Globals -> Globals) (g : Globals) : Globals :=
  if nonempty (ctx_String ctx flag) then assign g else g.

Definition applyFlags (ctx : Context) (g0 : Globals) : Globals :=
  let g1 := whenSet ctx "server_name" (setName (ctx_String ctx "server_name")) g0 in
  let g2 := whenSet ctx "address" (setAddress (ctx_String ctx "address")) g1 in
  let g3 := whenSet ctx "handler" (setHandler (ctx_String ctx "handler")) g2 in
  let g4 := whenSet ctx "resolver" (setResolver (ctx_String ctx "resolver")) g3 in
  let g5 := whenSet ctx "enable_rpc" (setEnableRPC (ctx_Bool ctx "enable_rpc")) g4 in
  let g6 := whenSet ctx "acme_provider" (setACMEProvider (ctx_String ctx "acme_provider")) g5 in
  let g7 := whenSet ctx "type" (setType (ctx_String ctx "type")) g6 in
  whenSet ctx "namespace"
    (fun g => setNamespace (TrimSuffix (ctx_String ctx "namespace") ("." ++ Type_ g)) g) g7.

(** [apiNamespace := Namespace + "." + Type] (line 94) *)
Definition apiNamespace (g : Globals) : string := Namespace g ++ "." ++ Type_ g.

(** ** HTTP requests, response writers and handlers *)

Record Request := mkRequest {
  Method : string;
  URLPath : string
}.

(** An [http.ResponseWriter]: the status line (0 while no header has been
    written) and the bytes written to the body so far. *)
Record ResponseWriter := mkWriter {
  status : nat;
  body : string
}.

Definition emptyWriter : ResponseWriter := mkWriter 0 "".

(** [w.Write(b)]: the first write sends status 200 when none was set. *)
Definition w_Write (w : ResponseWriter) (b : string) : ResponseWriter :=
  mkWriter (if Nat.eqb (status w) 0 then 200 else status w) (body w ++ b).

(** [w.WriteHeader(code)]: sends the status line, unless one was sent
    already, in which case the call changes nothing. *)
Definition w_WriteHeader (code : nat) (w : ResponseWriter) : ResponseWriter :=
  if Nat.eqb (status w) 0 then mkWriter code (body w) else w.

(** [http.Handler], as the function its ServeHTTP method computes. *)
Definition HttpHandler : Type := Request -> ResponseWriter -> ResponseWriter.

(** The double quote character, for the JSON literals of the source. *)
Definition dq : string := String "034"%char EmptyString.

(** [fmt.Sprintf(`{"version": "%s"}`, v)] *)
Definition versionJSON (v : string) : string :=
  "{" ++ dq ++ "version" ++ dq ++ ": " ++ dq ++ v ++ dq ++ "}".

(** The closure registered at "/" (lines 188-195). *)
Definition rootHandler (ctx : Context) : HttpHandler :=
  fun r w =>
    if String.eqb (Method r) "OPTIONS" then w
    else w_Write w (versionJSON (ctx_AppVersion ctx)).

(** The closure registered at "/favicon.ico" (line 198): empty body. *)
Definition faviconHandler : HttpHandler := fun _ w => w.

(** ** gorilla/mux route matching

    The router is an external library.  Its matching is modelled as the
    library builds it ([newRouteRegexp]): a route template is compiled to
    a regular expression that starts with [^]; the closing [$] is written
    for [HandleFunc]/[Path] routes and left out for [PathPrefix] routes; a
    [{name:pattern}] variable contributes [pattern] and a [{name}] variable
    [[^/]+]; the text outside variables is matched literally.  Patterns
    are supported in the form used by this package, a bracket character
    class followed by [+].  [Router.Match] takes the first registered
    route that matches.  [Router.ServeHTTP] first brings the path to its
    canonical form ([cleanPath]) and answers a path that is not canonical
    with a redirect, without matching it. *)

Module Mux.

Inductive regexpType := regexpTypePath | regexpTypePrefix.

Record charClass := mkClass {
  negated : bool;
  ranges : list (ascii * ascii)
}.

Inductive atom :=
| ALit (c : ascii)
| AVar (cls : charClass).

Definition inRange (c : ascii) (r : ascii * ascii) : bool :=
  (nat_of_ascii (fst r) <=? nat_of_ascii c)%nat &&
  (nat_of_ascii c <=? nat_of_ascii (snd r))%nat.

Definition inClass (cls : charClass) (c : ascii) : bool :=
  xorb (negated cls) (existsb (inRange c) (ranges cls)).

(** The items of a bracket expression up to its closing bracket. *)
Fixpoint classItems (s : string) : option (list (ascii * ascii) * string) :=
  match s with
  | EmptyString => None
  | String c t =>
    if Ascii.eqb c "]" then Some ([], t)
    else if Ascii.eqb c "[" || Ascii.eqb c "\" then None
    else
      match t with
      | String m (String d t') =>
        if Ascii.eqb m "-" && negb (Ascii.eqb d "]") then
          match classItems t' with
          | Some (rs, rest) => Some ((c, d) :: rs, rest)
          | None => None
          end
        else
          match classItems t with
          | Some (rs, rest) => Some ((c, c) :: rs, rest)
          | None => None
          end
      | _ =>
        match classItems t with
        | Some (rs, rest) => Some ((c, c) :: rs, rest)
        | None => None
        end
      end
  end.

(** A variable pattern: [[...]+] or [[^...]+]. *)
Definition compilePattern (p : string) : option charClass :=
  match p with
  | String "[" (String "^" t) =>
    match classItems t with
    | Some (rs, "+") => Some (mkClass true rs)
    | _ => None
    end
  | String "[" t =>
    match classItems t with
    | Some (rs, "+") => Some (mkClass false rs)
    | _ => None
    end
  | _ => None
  end.

(** [strings.SplitN(v, ":", 2)]: the pattern after the first colon. *)
Fixpoint afterColon (v : string) : option string :=
  match v with
  | EmptyString => None
  | String c t => if Ascii.eqb c ":" then Some t else afterColon t
  end.

Definition defaultPattern : string := "[^/]+".

Definition compileVar (v : string) : option atom :=
  match compilePattern (match afterColon v with Some p => p | None => defaultPattern end) with
  | Some cls => Some (AVar cls)
  | None => None
  end.

(** Scan of a template; [var] holds the text of the variable being read. *)
Fixpoint compileFrom (tpl : string) (var : option string) : option (list atom) :=
  match tpl, var with
  | EmptyString, None => Some []
  | EmptyString, Some _ => None
  | String c t, None =>
    if Ascii.eqb c "{" then compileFrom t (Some "")
    else if Ascii.eqb c "}" then None
    else option_map (cons (ALit c)) (compileFrom t None)
  | String c t, Some v =>
    if Ascii.eqb c "}" then
      match compileVar v, compileFrom t None with
      | Some a, Some rest => Some (a :: rest)
      | _, _ => None
      end
    else if Ascii.eqb c "{" then None
    else compileFrom t (Some (v ++ String c ""))
  end.

Definition compile (tpl : string) : option (list atom) := compileFrom tpl None.

(** [k] after zero or more further characters of the class (the tail of
    a [+] repetition). *)
Fixpoint more (cls : charClass) (k : string -> bool) (s : string) : bool :=
  k s ||
  match s with
  | String c t => inClass cls c && more cls k t
  | EmptyString => false
  end.

(** Does the compiled template match at the start of [s]?  With [anchored]
    the match must also reach the end of [s]. *)
Fixpoint matchAtoms (anchored : bool) (atoms : list atom) : string -> bool :=
  match atoms with
  | [] => fun s => if anchored then String.eqb s "" else true
  | ALit c :: rest => fun s =>
    match s with
    | String c' t => Ascii.eqb c c' && matchAtoms anchored rest t
    | EmptyString => false
    end
  | AVar cls :: rest => fun s =>
    match s with
    | String c' t => inClass cls c' && more cls (matchAtoms anchored rest) t
    | EmptyString => false
    end
  end.

Definition matches (typ : regexpType) (tpl : string) (path : string) : bool :=
  match compile tpl with
  | Some atoms =>
    matchAtoms (match typ with regexpTypePath => true | regexpTypePrefix => false end)
      atoms path
  | None => false
  end.

Record Route := mkRoute {
  routeType : regexpType;
  routeTemplate : string;
  routeHandler : HttpHandler
}.

(** [Router.Match]: the first registered route whose template matches. *)
Definition routeFor (routes : list Route) (path : string) : option Route :=
  find (fun rt => matches (routeType rt) (routeTemplate rt) path) routes.

(** The elements of a path between its slashes. *)
Fixpoint splitSlash (s : string) : list string :=
  match s with
  | EmptyString => [EmptyString]
  | String c t =>
    if Ascii.eqb c "/" then EmptyString :: splitSlash t
    else
      match splitSlash t with
      | e :: rest => String c e :: rest
      | [] => [String c EmptyString]
      end
  end.

(** One element read by [path.Clean] on a rooted path: an empty element
    and [.] are dropped, [..] removes the element before it (none at the
    root), any other element is kept. *)
Definition cleanStep (kept : list string) (e : string) : list string :=
  if String.eqb e "" || String.eqb e "." then kept
  else if String.eqb e ".." then removelast kept
  else (kept ++ [e])%list.

Definition joinRooted (elems : list string) : string :=
  match elems with
  | [] => "/"
  | _ => fold_right (fun e acc => "/" ++ e ++ acc) "" elems
  end.

(** [path.Clean] on a path that begins with a slash. *)
Definition path_Clean (p : string) : string :=
  match p with
  | String _ t => joinRooted (fold_left cleanStep (splitSlash t) [])
  | EmptyString => "."
  end.

Fixpoint lastIsSlash (s : string) : bool :=
  match s with
  | EmptyString => false
  | String c EmptyString => Ascii.eqb c "/"
  | String _ t => lastIsSlash t
  end.

(** mux's [cleanPath]: the empty path is [/]; a path with no leading
    slash is given one; the path is cleaned, and the trailing slash that
    [path.Clean] removed is put back. *)
Definition cleanPath (p : string) : string :=
  match p with
  | EmptyString => "/"
  | String c _ =>
    let p1 := if Ascii.eqb c "/" then p else "/" ++ p in
    let np := path_Clean p1 in
    if lastIsSlash p1 && negb (String.eqb np "/") then np ++ "/" else np
  end.

(** What the router does with a path: redirect it to its canonical form,
    serve it with a route, or find no route. *)
Inductive Dispatch :=
| Redirect (location : string)
| Serve (rt : Route)
| NoRoute.

Definition dispatch (routes : list Route) (path : string) : Dispatch :=
  if String.eqb (cleanPath path) path then
    match routeFor routes path with
    | Some rt => Serve rt
    | None => NoRoute
    end
  else Redirect (cleanPath path).

(** [http.NotFound]: the status 404, when none was sent before, and the
    message. *)
Definition notFound : HttpHandler :=
  fun _ w => w_Write (w_WriteHeader 404 w) ("404 page not found" ++ String "010"%char "").

(** [Router.ServeHTTP]; the redirect is status 301 (its [Location] header
    is the [location] of the dispatch). *)
Definition ServeHTTP (routes : list Route) : HttpHandler :=
  fun r w =>
    match dispatch routes (URLPath r) with
    | Redirect _ => w_WriteHeader 301 w
    | Serve rt => routeHandler rt r w
    | NoRoute => notFound r w
    end.

End Mux.

(** ** Values built by [run] *)

(** [time.Duration]: nanoseconds in a signed 64-bit integer. *)
Definition wrap64 (z : Z) : Z := ((z + 2 ^ 63) mod 2 ^ 64 - 2 ^ 63)%Z.
Definition Second : Z := 1000000000%Z.
Definition Minute : Z := (60 * Second)%Z.

(** Options of the cloudflare KV store ([cfstore]). *)
Inductive CFStoreOption :=
| cfstore_Token (token : string)
| cfstore_Account (id : string)
| cfstore_Namespace (id : string)
| cfstore_CacheTTL (ttl : Z).

Inductive Store := cfstore_NewStore (opts : list CFStoreOption).
Inductive Sync := memory_NewSync.
Inductive Storage := certmagic_NewStorage (lock : Sync) (store : Store).

(** The fields of [cloudflare.Config] that [run] assigns; the others keep
    what [cloudflare.NewDefaultConfig] gave them. *)
Record CloudflareConfig := mkCloudflareConfig {
  AuthToken : string;
  ZoneToken : string
}.

Inductive ChallengeProvider := cloudflare_DNSProvider (config : CloudflareConfig).

Inductive ACMEOption :=
| acme_AcceptToS (b : bool)
| acme_CA (url : string)
| acme_Cache (storage : Storage)
| acme_ChallengeProvider (p : ChallengeProvider)
| acme_OnDemand (b : bool).

Inductive ACMEProviderValue :=
| autocert_NewProvider
| certmagic_NewProvider (opts : list ACMEOption).

(** A [*tls.Config] made by [helper.TLSConfig]. *)
Record TLSConfig := mkTLSConfig { tlsCertificates : list string }.

Inductive ServerOption :=
| server_EnableACME (b : bool)
| server_ACMEHosts (hosts : list string)
| server_ACMEProvider (p : ACMEProviderValue)
| server_EnableTLS (b : bool)
| server_TLSConfig (c : TLSConfig)
| server_EnableCORS (b : bool).

(** Options of the backend service; [micro_Caller] stands for an option
    handed to [run] by its caller. *)
Inductive MicroOption :=
| micro_Caller (id : nat)
| micro_Name (n : string)
| micro_RegisterTTL (d : Z)
| micro_RegisterInterval (d : Z).

Inductive Service := micro_NewService (opts : list MicroOption).

(** [namespace.NewResolver(Type, Namespace)] *)
Record NamespaceResolver := namespace_NewResolver {
  nsType : string;
  nsNamespace : string
}.

Record ResolverOptions := mkResolverOptions {
  resolver_WithNamespace : NamespaceResolver;
  resolver_WithHandler : string
}.

Inductive ApiResolver :=
| rrmicro_NewResolver (o : ResolverOptions)
| host_NewResolver (o : ResolverOptions)
| path_NewResolver (o : ResolverOptions)
| grpc_NewResolver (o : ResolverOptions).

(** [regRouter.NewRouter(...)]; the registry is the service's. *)
Record RegistryRouter := regRouter_NewRouter {
  router_WithHandler : option string;
  router_WithResolver : ApiResolver;
  router_WithRegistry : Service
}.

Record HandlerOptions := mkHandlerOptions {
  ahandler_WithNamespace : string;
  ahandler_WithRouter : RegistryRouter;
  ahandler_WithClient : Service
}.

(** The handler packages of go-micro and their [Handler] name constants. *)
Inductive HandlerPackage := arpc | aapi | event | ahttp | web.

Definition handlerName (p : HandlerPackage) : string :=
  match p with
  | arpc => "rpc" | aapi => "api" | event => "event" | ahttp => "http" | web => "web"
  end.

(** A [plugin.Plugin]: its name and the wrapper its [Handler] method returns. *)
Record Plugin := mkPlugin {
  plugin_String : string;
  plugin_Handler : HttpHandler -> HttpHandler
}.

(** ** The world outside [run]

    What [run] reads from its environment and what its collaborators
    answer: the process environment, the two plugin registries, helpers of
    other packages, the handlers of go-micro, and the errors returned by
    the server and the service. *)
Record World := mkWorld {
  os_Getenv : string -> string;
  Plugins : list Plugin;
  plugin_Plugins : list Plugin;
  helper_ACMEHosts : Context -> list string;
  helper_TLSConfig : Context -> TLSConfig + string;
  cloudflare_NewDNSProviderConfig : CloudflareConfig -> ChallengeProvider + string;
  stats_StatsHandler : HttpHandler;
  stats_ServeHTTP : HttpHandler -> HttpHandler;
  handler_RPC : HttpHandler;
  handler_Meta : Service -> RegistryRouter -> NamespaceResolver -> HttpHandler;
  NewHandler : HandlerPackage -> HandlerOptions -> HttpHandler;
  auth_Wrapper : ApiResolver -> NamespaceResolver -> HttpHandler -> HttpHandler;
  api_Start : option string;
  service_Run : option string;
  api_Stop : option string
}.

(** ** Effects

    The calls of [run] that act on the world, recorded in the order they
    are made.  [log_Fatal] is the log line of [log.Fatal]/[log.Fatalf];
    [ev_NewServer], [ev_ServerInit], [ev_ServerHandle], [ev_ServerStart] and
    [ev_ServerStop] are [httpapi.NewServer], [api.Init], [api.Handle],
    [api.Start] and [api.Stop]; [ev_ServiceRun] is [service.Run], which
    blocks while the backend service runs and returns once it has shut
    down. *)

Inductive Event :=
| log_Init
| log_Infof (msg : string)
| log_Fatal (msg : string)
| fmt_Println (msg : string)
| ev_PluginInit (name : string)
| ev_StatsNew
| ev_StatsStart
| ev_StatsStop
| ev_NewService (opts : list MicroOption)
| ev_NewServer (address : string) (wrap : HttpHandler -> HttpHandler)
| ev_ServerInit (opts : list ServerOption)
| ev_ServerHandle (pattern : string) (h : HttpHandler)
| ev_ServerStart
| ev_ServiceRun
| ev_ServerStop.

Record State := mkState {
  globals : Globals;
  router : list Mux.Route;
  trace : list Event
}.

(** How a computation leaves: with a value, by [os.Exit], by an early
    [return] from [run], or by a runtime panic. *)
Inductive Outcome (A : Type) :=
| Value (a : A)
| Exit (code : Z)
| Return
| Panic.
Arguments Value {A} a.
Arguments Exit {A} code.
Arguments Return {A}.
Arguments Panic {A}.

Definition M (A : Type) : Type := State -> Outcome A * State.

Definition ret {A} (a : A) : M A := fun s => (Value a, s).

Definition bind {A B} (m : M A) (k : A -> M B) : M B :=
  fun s =>
    match m s with
    | (Value a, s') => k a s'
    | (Exit c, s') => (Exit c, s')
    | (Return, s') => (Return, s')
    | (Panic, s') => (Panic, s')
    end.

Declare Scope go_scope.
Delimit Scope go_scope with go.
Notation "x <- m ;; k" := (bind m (fun x => k))
  (at level 61, m at next level, right associativity) : go_scope.
Notation "m ;; k" := (bind m (fun _ => k))
  (at level 61, right associativity) : go_scope.
Local Open Scope go_scope.

Definition emit (e : Event) : M unit :=
  fun s => (Value tt, mkState (globals s) (router s) (trace s ++ [e])%list).

Definition getGlobals : M Globals := fun s => (Value (globals s), s).

Definition setGlobals (g : Globals) : M unit :=
  fun s => (Value tt, mkState g (router s) (trace s)).

Definition getRouter : M (list Mux.Route) := fun s => (Value (router s), s).

(** [os.Exit(code)] *)
Definition os_Exit {A} (code : Z) : M A := fun s => (Exit code, s).

(** [log.Fatal]: the message is logged and the process exits with 1. *)
Definition Fatal {A} (msg : string) : M A := emit (log_Fatal msg);; os_Exit 1.

(** [return] out of [run] *)
Definition returnFromRun {A} : M A := fun s => (Return, s).

Definition panic {A} : M A := fun s => (Panic, s).

Definition when (b : bool) (m : M unit) : M unit := if b then m else ret tt.

(** [r.HandleFunc(path, f)] and [r.PathPrefix(tpl).Handler(h)]: a route is
    added after the ones already registered. *)
Definition addRoute (rt : Mux.Route) : M unit :=
  fun s => (Value tt, mkState (globals s) (router s ++ [rt])%list (trace s)).

Definition HandleFunc (path : string) (f : HttpHandler) : M unit :=
  addRoute (Mux.mkRoute Mux.regexpTypePath path f).

Definition PathPrefix (tpl : string) (h : HttpHandler) : M unit :=
  addRoute (Mux.mkRoute Mux.regexpTypePrefix tpl h).

(** ** [run] (api.go lines 63-381) *)

(** The certmagic case of the provider switch (lines 113-153). *)
Definition certmagicProvider (W : World) : M ACMEProviderValue :=
  g <- getGlobals;;
  when (negb (String.eqb (ACMEChallengeProvider g) "cloudflare"))
    (Fatal "The only implemented DNS challenge provider is cloudflare");;
  let apiToken := os_Getenv W "CF_API_TOKEN" in
  let accountID := os_Getenv W "CF_ACCOUNT_ID" in
  let kvID := os_Getenv W "KV_NAMESPACE_ID" in
  when (Nat.eqb (len apiToken) 0 || Nat.eqb (len accountID) 0)
    (Fatal "env variables CF_API_TOKEN and CF_ACCOUNT_ID must be set");;
  when (Nat.eqb (len kvID) 0)
    (Fatal "env var KV_NAMESPACE_ID must be set to your cloudflare workers KV namespace ID");;
  let cloudflareStore :=
    cfstore_NewStore
      [cfstore_Token apiToken; cfstore_Account accountID;
       cfstore_Namespace kvID; cfstore_CacheTTL Minute] in
  let storage := certmagic_NewStorage memory_NewSync cloudflareStore in
  let config := mkCloudflareConfig apiToken apiToken in
  challengeProvider <-
    match cloudflare_NewDNSProviderConfig W config with
    | inl p => ret p
    | inr err => Fatal err
    end;;
  ret (certmagic_NewProvider
         [acme_AcceptToS true; acme_CA (ACMECA g); acme_Cache storage;
          acme_ChallengeProvider challengeProvider; acme_OnDemand false]).

(** The ACME/TLS block (lines 105-166), from [opts] empty. *)
Definition tlsOptions (W : World) (ctx : Context) : M (list ServerOption) :=
  g <- getGlobals;;
  if ctx_Bool ctx "enable_acme" then
    let hosts := helper_ACMEHosts W ctx in
    let opts := [server_EnableACME true; server_ACMEHosts hosts] in
    if String.eqb (ACMEProvider g) "autocert" then
      ret (opts ++ [server_ACMEProvider autocert_NewProvider])%list
    else if String.eqb (ACMEProvider g) "certmagic" then
      p <- certmagicProvider W;;
      ret (opts ++ [server_ACMEProvider p])%list
    else
      Fatal (ACMEProvider g ++ " is not a valid ACME provider" ++ String "010"%char "")
  else if ctx_Bool ctx "enable_tls" then
    match helper_TLSConfig W ctx with
    | inr err => emit (fmt_Println err);; returnFromRun
    | inl config => ret [server_EnableTLS true; server_TLSConfig config]
    end
  else ret [].

(** Lines 168-170. *)
Definition corsOption (ctx : Context) (opts : list ServerOption) : list ServerOption :=
  if ctx_Bool ctx "enable_cors" then (opts ++ [server_EnableCORS true])%list else opts.

(** Lines 179-185; the answer tells whether [h] is the router itself or
    the stats wrapper around it, and whether [st.Stop] is deferred. *)
Definition statsBlock (W : World) (ctx : Context) : M bool :=
  if ctx_Bool ctx "enable_stats" then
    emit ev_StatsNew;;
    HandleFunc "/stats" (stats_StatsHandler W);;
    emit ev_StatsStart;;
    ret true
  else ret false.

(** Lines 200-206. *)
Definition serviceOptions (ctx : Context) (g : Globals) (srvOpts : list MicroOption)
    : list MicroOption :=
  let o1 := (srvOpts ++ [micro_Name (Name g)])%list in
  let o2 := if (0 <? ctx_Int ctx "register_ttl")%Z
            then (o1 ++ [micro_RegisterTTL (wrap64 (ctx_Int ctx "register_ttl" * Second))])%list
            else o1 in
  if (0 <? ctx_Int ctx "register_interval")%Z
  then (o2 ++ [micro_RegisterInterval (wrap64 (ctx_Int ctx "register_interval" * Second))])%list
  else o2.

(** Lines 229-232. *)
Definition rpcBlock (W : World) : M unit :=
  g <- getGlobals;;
  when (EnableRPC g)
    (emit (log_Infof ("Registering RPC Handler at " ++ RPCPath g));;
     HandleFunc (RPCPath g) (handler_RPC W)).

(** Lines 249-256: the default resolver unless one of the three names. *)
Definition chooseResolver (g : Globals) (ropts : ResolverOptions) : ApiResolver :=
  if String.eqb (Resolver g) "host" then host_NewResolver ropts
  else if String.eqb (Resolver g) "path" then path_NewResolver ropts
  else if String.eqb (Resolver g) "grpc" then grpc_NewResolver ropts
  else rrmicro_NewResolver ropts.

(** One case of the handler switch for a go-micro handler package: the
    registry router with that package's handler name, and the handler
    made with the api namespace, that router and the service's client. *)
Definition packageHandler (W : World) (p : HandlerPackage) (ns : string)
    (rr : ApiResolver) (service : Service) : HttpHandler :=
  let rt := regRouter_NewRouter (Some (handlerName p)) rr service in
  NewHandler W p (mkHandlerOptions ns rt service).

(** The handler switch (lines 265-338). *)
Definition handlerBlock (W : World) (ns : string) (rr : ApiResolver)
    (nsResolver : NamespaceResolver) (service : Service) : M unit :=
  g <- getGlobals;;
  if String.eqb (Handler g) "rpc" then
    emit (log_Infof ("Registering API RPC Handler at " ++ APIPath g));;
    PathPrefix (APIPath g) (packageHandler W arpc ns rr service)
  else if String.eqb (Handler g) "api" then
    emit (log_Infof ("Registering API Request Handler at " ++ APIPath g));;
    PathPrefix (APIPath g) (packageHandler W aapi ns rr service)
  else if String.eqb (Handler g) "event" then
    emit (log_Infof ("Registering API Event Handler at " ++ APIPath g));;
    PathPrefix (APIPath g) (packageHandler W event ns rr service)
  else if String.eqb (Handler g) "http" || String.eqb (Handler g) "proxy" then
    emit (log_Infof ("Registering API HTTP Handler at " ++ ProxyPath g));;
    PathPrefix (ProxyPath g) (packageHandler W ahttp ns rr service)
  else if String.eqb (Handler g) "web" then
    emit (log_Infof ("Registering API Web Handler at " ++ APIPath g));;
    PathPrefix (APIPath g) (packageHandler W web ns rr service)
  else
    emit (log_Infof ("Registering API Default Handler at " ++ APIPath g));;
    let rt := regRouter_NewRouter None rr service in
    PathPrefix (APIPath g) (handler_Meta W service rt nsResolver).

(** The loop of lines 342-344:
    [for i := len(plugins); i > 0; i-- { h = plugins[i-1].Handler()(h) }].
    An index outside the slice would panic. *)
Fixpoint wrapFrom (plugins : list Plugin) (i : nat) (h : HttpHandler)
    : option HttpHandler :=
  match i with
  | O => Some h
  | S j =>
    match nth_error plugins j with
    | Some p => wrapFrom plugins j (plugin_Handler p h)
    | None => None
    end
  end.

(** Lines 341-344: both registries, the package's own first. *)
Definition reverseWrap (W : World) (h : HttpHandler) : option HttpHandler :=
  let plugins := (Plugins W ++ plugin_Plugins W)%list in
  wrapFrom plugins (length plugins) h.

(** The start, run and stop calls (lines 361-376). *)
Definition orFatal (e : Event) (err : option string) : M unit :=
  emit e;;
  match err with
  | Some msg => Fatal msg
  | None => ret tt
  end.

Definition lifecycle (W : World) : M unit :=
  orFatal ev_ServerStart (api_Start W);;
  orFatal ev_ServiceRun (service_Run W);;
  orFatal ev_ServerStop (api_Stop W).

(** [for _, p := range Plugins() { p.Init(ctx) }] (lines 97-99) *)
Fixpoint initPlugins (ps : list Plugin) : M unit :=
  match ps with
  | [] => ret tt
  | p :: rest => emit (ev_PluginInit (plugin_String p));; initPlugins rest
  end.

(** [h] holds the router by reference (lines 177 and 182), so the routes
    registered afterwards are seen through it: it is resolved against the
    route table as it stands when the server takes the handler. *)
Definition routerHandler (W : World) (withStats : bool) (routes : list Mux.Route)
    : HttpHandler :=
  if withStats then stats_ServeHTTP W (Mux.ServeHTTP routes) else Mux.ServeHTTP routes.

Definition run (W : World) (ctx : Context) (srvOpts : list MicroOption) : M unit :=
  emit log_Init;;
  g0 <- getGlobals;;
  setGlobals (applyFlags ctx g0);;
  g <- getGlobals;;
  let ns := apiNamespace g in
  initPlugins (Plugins W);;
  opts <- tlsOptions W ctx;;
  let opts := corsOption ctx opts in
  withStats <- statsBlock W ctx;;
  HandleFunc "/" (rootHandler ctx);;
  HandleFunc "/favicon.ico" faviconHandler;;
  let srvOpts := serviceOptions ctx g srvOpts in
  emit (ev_NewService srvOpts);;
  let service := micro_NewService srvOpts in
  rpcBlock W;;
  let nsResolver := namespace_NewResolver (Type_ g) (Namespace g) in
  let ropts := mkResolverOptions nsResolver (Handler g) in
  let rr := chooseResolver g ropts in
  handlerBlock W ns rr nsResolver service;;
  routes <- getRouter;;
  h <- match reverseWrap W (routerHandler W withStats routes) with
       | Some h => ret h
       | None => panic
       end;;
  emit (ev_NewServer (Address g) (auth_Wrapper W rr nsResolver));;
  emit (ev_ServerInit opts);;
  emit (ev_ServerHandle "/" h);;
  lifecycle W;;
  when withStats (emit ev_StatsStop).

(** The state the process starts [run] in. *)
Definition initState : State := mkState initGlobals [] [].

(** ** What a started gateway has built

    The route table and the events of [run] written out as values, to be
    proved equal to what the monadic program leaves in the state. *)

Definition pluginInits (W : World) : list Event :=
  map (fun p => ev_PluginInit (plugin_String p)) (Plugins W).

Definition theService (ctx : Context) (g : Globals) (srvOpts : list MicroOption) : Service :=
  micro_NewService (serviceOptions ctx g srvOpts).

Definition theNamespaceResolver (g : Globals) : NamespaceResolver :=
  namespace_NewResolver (Type_ g) (Namespace g).

Definition theResolver (g : Globals) : ApiResolver :=
  chooseResolver g (mkResolverOptions (theNamespaceResolver g) (Handler g)).

Definition isProxy (g : Globals) : bool :=
  String.eqb (Handler g) "http" || String.eqb (Handler g) "proxy".

(** The template the selected handler is registered under. *)
Definition strategyTemplate (g : Globals) : string :=
  if isProxy g then ProxyPath g else APIPath g.

Definition statsRoutes (W : World) (ctx : Context) : list Mux.Route :=
  if ctx_Bool ctx "enable_stats"
  then [Mux.mkRoute Mux.regexpTypePath "/stats" (stats_StatsHandler W)] else [].

Definition fixedRoutes (ctx : Context) : list Mux.Route :=
  [Mux.mkRoute Mux.regexpTypePath "/" (rootHandler ctx);
   Mux.mkRoute Mux.regexpTypePath "/favicon.ico" faviconHandler].

Definition rpcRoutes (W : World) (g : Globals) : list Mux.Route :=
  if EnableRPC g then [Mux.mkRoute Mux.regexpTypePath (RPCPath g) (handler_RPC W)] else [].

Definition routeKey (rt : Mux.Route) : Mux.regexpType * string :=
  (Mux.routeType rt, Mux.routeTemplate rt).

(** The events that concern the gateway server. *)
Definition serverEvent (e : Event) : bool :=
  match e with
  | ev_NewServer _ _ | ev_ServerInit _ | ev_ServerHandle _ _
  | ev_ServerStart | ev_ServerStop => true
  | _ => false
  end.

Definition lifecycleEvent (e : Event) : bool :=
  match e with
  | ev_ServerStart | ev_ServiceRun | ev_ServerStop => true
  | _ => false
  end.

Definition logEvent (e : Event) : bool :=
  match e with
  | log_Fatal _ | fmt_Println _ => true
  | _ => false
  end.

(** [run] started with the package variables at [g], no route and no
    event yet. *)
Definition startState (g : Globals) : State := mkState g [] [].

(** The composition named by the wrapping order: the first plugin of the
    list is the outermost wrapper. *)
Definition wrapAll (plugins : list Plugin) (h : HttpHandler) : HttpHandler :=
  fold_right (fun p k => plugin_Handler p k) h plugins.

(** First path segment: the text between the leading slash and the next. *)
Fixpoint upToSlash (s : string) : string :=
  match s with
  | EmptyString => EmptyString
  | String c t => if Ascii.eqb c "/" then EmptyString else String c (upToSlash t)
  end.

Definition firstSegment (path : string) : string :=
  match path with
  | String c t => if Ascii.eqb c "/" then upToSlash t else upToSlash path
  | EmptyString => EmptyString
  end.

Definition alnum (c : ascii) : bool :=
  Mux.inClass (Mux.mkClass false [("a", "z"); ("A", "Z"); ("0", "9")]%char) c.

Fixpoint allAlnum (s : string) : bool :=
  match s with
  | EmptyString => true
  | String c t => alnum c && allAlnum t
  end.

(** A path that begins with a slash and one alphanumeric character. *)
Definition slashAlnum (path : string) : bool :=
  match path with
  | String c (String c' _) => Ascii.eqb c "/" && alnum c'
  | _ => false
  end.

(** A path that begins with a slash. *)
Definition slashFirst (path : string) : bool :=
  match path with
  | String c _ => Ascii.eqb c "/"
  | EmptyString => false
  end.

(** Does the first event satisfying [p] come before one satisfying [q]? *)
Fixpoint before (p q : Event -> bool) (tr : list Event) : bool :=
  match tr with
  | [] => false
  | e :: rest => if p e then existsb q rest else before p q rest
  end.

Definition isServerStart (e : Event) : bool :=
  match e with ev_ServerStart => true | _ => false end.

Definition isServerStop (e : Event) : bool :=
  match e with ev_ServerStop => true | _ => false end.

Definition isServiceRun (e : Event) : bool :=
  match e with ev_ServiceRun => true | _ => false end.

(** The handler selected by the switch of lines 265-338. *)
Definition strategyHandler (W : World) (ctx : Context) (g : Globals)
    (srvOpts : list MicroOption) : HttpHandler :=
  let ns := apiNamespace g in
  let rr := theResolver g in
  let service := theService ctx g srvOpts in
  if String.eqb (Handler g) "rpc" then packageHandler W arpc ns rr service
  else if String.eqb (Handler g) "api" then packageHandler W aapi ns rr service
  else if String.eqb (Handler g) "event" then packageHandler W event ns rr service
  else if String.eqb (Handler g) "http" || String.eqb (Handler g) "proxy"
  then packageHandler W ahttp ns rr service
  else if String.eqb (Handler g) "web" then packageHandler W web ns rr service
  else handler_Meta W service (regRouter_NewRouter None rr service) (theNamespaceResolver g).

Definition strategyLog (g : Globals) : string :=
  if String.eqb (Handler g) "rpc" then "Registering API RPC Handler at " ++ APIPath g
  else if String.eqb (Handler g) "api" then "Registering API Request Handler at " ++ APIPath g
  else if String.eqb (Handler g) "event" then "Registering API Event Handler at " ++ APIPath g
  else if String.eqb (Handler g) "http" || String.eqb (Handler g) "proxy"
  then "Registering API HTTP Handler at " ++ ProxyPath g
  else if String.eqb (Handler g) "web" then "Registering API Web Handler at " ++ APIPath g
  else "Registering API Default Handler at " ++ APIPath g.

Definition strategyRoute (W : World) (ctx : Context) (g : Globals)
    (srvOpts : list MicroOption) : Mux.Route :=
  Mux.mkRoute Mux.regexpTypePrefix (strategyTemplate g) (strategyHandler W ctx g srvOpts).

(** The routes in registration order. *)
Definition routeTable (W : World) (ctx : Context) (g : Globals)
    (srvOpts : list MicroOption) : list Mux.Route :=
  (statsRoutes W ctx ++ fixedRoutes ctx ++ rpcRoutes W g ++ [strategyRoute W ctx g srvOpts])%list.

(** The handler given to the server: the plugins around the router. *)
Definition servedHandler (W : World) (ctx : Context) (routes : list Mux.Route) : HttpHandler :=
  wrapAll (Plugins W ++ plugin_Plugins W)%list
    (routerHandler W (ctx_Bool ctx "enable_stats") routes).

(** The events between the TLS block and the first lifecycle call. *)
Definition setupEvents (W : World) (ctx : Context) (g : Globals)
    (srvOpts : list MicroOption) (opts : list ServerOption) (routes : list Mux.Route)
    : list Event :=
  ((if ctx_Bool ctx "enable_stats" then [ev_StatsNew; ev_StatsStart] else []) ++
   [ev_NewService (serviceOptions ctx g srvOpts)] ++
   (if EnableRPC g then [log_Infof ("Registering RPC Handler at " ++ RPCPath g)] else []) ++
   [log_Infof (strategyLog g);
    ev_NewServer (Address g) (auth_Wrapper W (theResolver g) (theNamespaceResolver g));
    ev_ServerInit (corsOption ctx opts);
    ev_ServerHandle "/" (servedHandler W ctx routes)])%list.

(** The events and the outcome of the start, run and stop calls. *)
Definition lifecycleEvents (W : World) : list Event :=
  match api_Start W with
  | Some e => [ev_ServerStart; log_Fatal e]
  | None =>
    match service_Run W with
    | Some e => [ev_ServerStart; ev_ServiceRun; log_Fatal e]
    | None =>
      match api_Stop W with
      | Some e => [ev_ServerStart; ev_ServiceRun; ev_ServerStop; log_Fatal e]
      | None => [ev_ServerStart; ev_ServiceRun; ev_ServerStop]
      end
    end
  end.

Definition lifecycleOutcome (W : World) : Outcome unit :=
  match api_Start W, service_Run W, api_Stop W with
  | None, None, None => Value tt
  | _, _, _ => Exit 1
  end.

(** The deferred [st.Stop] runs when [run] returns, not when it exits. *)
Definition deferredEvents (W : World) (ctx : Context) : list Event :=
  match lifecycleOutcome W with
  | Value _ => if ctx_Bool ctx "enable_stats" then [ev_StatsStop] else []
  | _ => []
  end.

(** The state [run] hands to the TLS block. *)
Definition configuredState (W : World) (ctx : Context) (s : State) : State :=
  mkState (applyFlags ctx (globals s)) (router s)
    (trace s ++ log_Init :: pluginInits W).

(** The state [run] ends in when the TLS block gave [opts] in state [s]:
    every route registered, and the events of the setup, of the three
    lifecycle calls and of the deferred call. *)
Definition finishedState (W : World) (ctx : Context) (srvOpts : list MicroOption)
    (opts : list ServerOption) (s : State) : State :=
  let g := globals s in
  let routes := (router s ++ routeTable W ctx g srvOpts)%list in
  mkState g routes
    (trace s ++ setupEvents W ctx g srvOpts opts routes ++
     lifecycleEvents W ++ deferredEvents W ctx).

(** ** A concrete world, for running the embedding *)

Fixpoint lookup {A} (d : A) (l : list (string * A)) (k : string) : A :=
  match l with
  | [] => d
  | (k', v) :: rest => if String.eqb k k' then v else lookup d rest k
  end.

(** A command line: string flags, boolean flags and the app version. *)
Definition cli (flags : list (string * string)) (bools : list (string * bool))
    (version : string) : Context :=
  mkContext (lookup "" flags) (lookup false bools) (lookup 0%Z []) version.

(** A plugin that brackets the body written by the handler it wraps. *)
Definition tagPlugin (n : string) : Plugin :=
  mkPlugin n (fun h r w => w_Write (h r (w_Write w ("<" ++ n ++ ">"))) ("</" ++ n ++ ">")).

(** A handler that writes a fixed word. *)
Definition say (word : string) : HttpHandler := fun _ w => w_Write w word.

Definition demoWorld (env : list (string * string)) (local global : list Plugin)
    (start runErr stop : option string) : World := {|
  os_Getenv := lookup "" env;
  Plugins := local;
  plugin_Plugins := global;
  helper_ACMEHosts := fun _ => ["example.com"];
  helper_TLSConfig := fun _ => inl (mkTLSConfig ["cert.pem"]);
  cloudflare_NewDNSProviderConfig := fun c => inl (cloudflare_DNSProvider c);
  stats_StatsHandler := say "stats";
  stats_ServeHTTP := fun h => h;
  handler_RPC := say "rpc";
  handler_Meta := fun _ _ _ => say "meta";
  NewHandler := fun p _ => say (handlerName p);
  auth_Wrapper := fun _ _ h => h;
  api_Start := start;
  service_Run := runErr;
  api_Stop := stop
|}.

Definition cloudflareEnv : list (string * string) :=
  [("CF_API_TOKEN", "token"); ("CF_ACCOUNT_ID", "account"); ("KV_NAMESPACE_ID", "kv")].

(** A world where every collaborator succeeds and no plugin is registered. *)
Definition quietWorld : World := demoWorld cloudflareEnv [] [] None None None.

(** A world with CF_API_TOKEN unset and one plugin of the package. *)
Definition noTokenWorld : World :=
  demoWorld [("CF_ACCOUNT_ID", "account"); ("KV_NAMESPACE_ID", "kv")]
    [tagPlugin "A"] [] None None None.

Definition plainCli : Context := cli [] [] "1.2.3".

Definition certmagicCli : Context :=
  cli [("acme_provider", "certmagic")] [("enable_acme", true)] "1.2.3".

Definition unknownProviderCli : Context :=
  cli [("acme_provider", "letsencrypt")] [("enable_acme", true)] "1.2.3".

Definition httpCli : Context := cli [("handler", "http")] [] "1.2.3".

Definition rpcCli : Context :=
  cli [("enable_rpc", "true")] [("enable_rpc", true)] "1.2.3".

(** A world with plugin A in the package's registry and plugins B and C
    in the global one. *)
Definition abcWorld : World :=
  demoWorld cloudflareEnv [tagPlugin "A"] [tagPlugin "B"; tagPlugin "C"] None None None.

(** The same world with [helper.TLSConfig] failing. *)
Definition withTLSError (W : World) (err : string) : World :=
  mkWorld (os_Getenv W) (Plugins W) (plugin_Plugins W) (helper_ACMEHosts W)
    (fun _ => inr err) (cloudflare_NewDNSProviderConfig W) (stats_StatsHandler W)
    (stats_ServeHTTP W) (handler_RPC W) (handler_Meta W) (NewHandler W)
    (auth_Wrapper W) (api_Start W) (service_Run W) (api_Stop W).

Definition tlsCli : Context := cli [] [("enable_tls", true)] "1.2.3".

Definition fullCli : Context :=
  cli [("handler", "proxy"); ("enable_rpc", "true")]
    [("enable_rpc", true); ("enable_stats", true); ("enable_cors", true)] "1.2.3".

(** ** The command table ([Commands], api.go lines 383-442) *)

(** A [cli.Flag]: the two kinds the package declares. *)
Inductive Flag :=
| StringFlag (name usage : string) (envVars : list string)
| BoolFlag (name usage : string) (envVars : list string) (value : bool).

Definition flagName (f : Flag) : string :=
  match f with
  | StringFlag n _ _ => n
  | BoolFlag n _ _ _ => n
  end.

(** A [cli.Command]; the action is what it runs, its error being [nil]. *)
#[warnings="-register-all"]
Inductive Command :=
| mkCommand (name usage : string) (action : Context -> M unit)
    (flags : list Flag) (subcommands : list Command).

Definition commandName (c : Command) : string :=
  match c with mkCommand n _ _ _ _ => n end.
Definition commandUsage (c : Command) : string :=
  match c with mkCommand _ u _ _ _ => u end.
Definition commandAction (c : Command) : Context -> M unit :=
  match c with mkCommand _ _ a _ _ => a end.
Definition commandFlags (c : Command) : list Flag :=
  match c with mkCommand _ _ _ f _ => f end.
Definition commandSubcommands (c : Command) : list Command :=
  match c with mkCommand _ _ _ _ sub => sub end.

(** The [Commands] and [Flags] methods of the plugins. *)
Record PluginCLI := mkPluginCLI {
  plugin_Commands : Plugin -> list Command;
  plugin_Flags : Plugin -> list Flag
}.

(** The flags of the command literal (lines 391-428). *)
Definition apiFlags : list Flag :=
  [StringFlag "address" "Set the api address e.g 0.0.0.0:8080" ["MICRO_API_ADDRESS"];
   StringFlag "handler"
     "Specify the request handler to be used for mapping HTTP requests to services; {api, event, http, rpc}"
     ["MICRO_API_HANDLER"];
   StringFlag "namespace" "Set the namespace used by the API e.g. com.example"
     ["MICRO_API_NAMESPACE"];
   StringFlag "type" "Set the service type used by the API e.g. api" ["MICRO_API_TYPE"];
   StringFlag "resolver" "Set the hostname resolver used by the API {host, path, grpc}"
     ["MICRO_API_RESOLVER"];
   BoolFlag "enable_rpc" "Enable call the backend directly via /rpc"
     ["MICRO_API_ENABLE_RPC"] false;
   BoolFlag "enable_cors"
     "Enable CORS, allowing the API to be called by frontend applications"
     ["MICRO_API_ENABLE_CORS"] true].

(** One turn of the loop of lines 431-439. *)
Definition addPlugin (C : PluginCLI) (command : Command) (p : Plugin) : Command :=
  let command1 :=
    let cmds := plugin_Commands C p in
    if (0 <? length cmds)%nat
    then mkCommand (commandName command) (commandUsage command) (commandAction command)
           (commandFlags command) (commandSubcommands command ++ cmds)%list
    else command in
  let flags := plugin_Flags C p in
  if (0 <? length flags)%nat
  then mkCommand (commandName command1) (commandUsage command1) (commandAction command1)
         (commandFlags command1 ++ flags)%list (commandSubcommands command1)
  else command1.

Definition Commands (W : World) (C : PluginCLI) (options : list MicroOption)
    : list Command :=
  let command :=
    mkCommand "api" "Run the api gateway" (fun ctx => run W ctx options) apiFlags [] in
  [fold_left (addPlugin C) (Plugins W) command].

(** ** Predicates on events and further command lines *)

Definition isPluginInit (e : Event) : bool :=
  match e with ev_PluginInit _ => true | _ => false end.

Definition isStatsStart (e : Event) : bool :=
  match e with ev_StatsStart => true | _ => false end.

Definition isStatsStop (e : Event) : bool :=
  match e with ev_StatsStop => true | _ => false end.

Definition acmeCli : Context := cli [] [("enable_acme", true); ("enable_tls", true)] "1.2.3".

Definition statsCli : Context := cli [] [("enable_stats", true)] "1.2.3".

Definition webCli : Context := cli [("handler", "web"); ("resolver", "path")] [] "1.2.3".

Definition typoCli : Context := cli [("handler", "rcp")] [] "1.2.3".

(** A command line with a register TTL of 30 seconds. *)
Definition ttlCli : Context :=
  mkContext (lookup "" []) (lookup false []) (lookup 0%Z [("register_ttl", 30%Z)]) "1.2.3".

(** Plugin A declares one flag and one command, the others nothing. *)
Definition demoCLI : PluginCLI :=
  mkPluginCLI
    (fun p => if String.eqb (plugin_String p) "A"
              then [mkCommand "a" "plugin command" (fun _ => ret tt) [] []] else [])
    (fun p => if String.eqb (plugin_String p) "A"
              then [StringFlag "a_flag" "plugin flag" []] else []).

(** The same world with the cloudflare challenge client failing. *)
Definition withChallengeError (W : World) (err : string) : World :=
  mkWorld (os_Getenv W) (Plugins W) (plugin_Plugins W) (helper_ACMEHosts W)
    (helper_TLSConfig W) (fun _ => inr err) (stats_StatsHandler W)
    (stats_ServeHTTP W) (handler_RPC W) (handler_Meta W) (NewHandler W)
    (auth_Wrapper W) (api_Start W) (service_Run W) (api_Stop W).

(** * Properties *)

(** ** The embedding at work *)

Example TrimSuffix_strips_once :
  TrimSuffix "go.micro.api" ".api" = "go.micro" /\
  TrimSuffix "go.micro" ".api" = "go.micro" /\
  TrimSuffix "go.micro.api.api" ".api" = "go.micro.api".
Proof. repeat split; reflexivity. Qed.

Example proxy_pattern_compiles :
  Mux.compile "/{service:[a-zA-Z0-9]+}" =
  Some [Mux.ALit "/"; Mux.AVar (Mux.mkClass false [("a", "z"); ("A", "Z"); ("0", "9")]%char)].
Proof. reflexivity. Qed.

Example proxy_pattern_matches :
  map (Mux.matches Mux.regexpTypePrefix "/{service:[a-zA-Z0-9]+}")
    ["/"; "/rpc"; "/greeter/hello"; "/a-b"; "/-a"; ""] =
  [false; true; true; true; false; false].
Proof. reflexivity. Qed.

Example exact_path_matches :
  map (Mux.matches Mux.regexpTypePath "/rpc") ["/rpc"; "/rpc/"; "/rpcx"; "/"] =
  [true; false; false; false].
Proof. reflexivity. Qed.

(** The default command line: three routes, the meta handler last. *)
Example default_routes :
  map routeKey (router (snd (run quietWorld plainCli [] initState))) =
  [(Mux.regexpTypePath, "/"); (Mux.regexpTypePath, "/favicon.ico");
   (Mux.regexpTypePrefix, "/")].
Proof. reflexivity. Qed.

(** Stats, RPC and the proxy handler: five routes, and the deferred stop
    of the stats after the lifecycle. *)
Example full_routes :
  map routeKey (router (snd (run quietWorld fullCli [] initState))) =
  [(Mux.regexpTypePath, "/stats"); (Mux.regexpTypePath, "/");
   (Mux.regexpTypePath, "/favicon.ico"); (Mux.regexpTypePath, "/rpc");
   (Mux.regexpTypePrefix, "/{service:[a-zA-Z0-9]+}")] /\
  fst (run quietWorld fullCli [] initState) = Value tt /\
  last (trace (snd (run quietWorld fullCli [] initState))) log_Init = ev_StatsStop.
Proof. repeat split; reflexivity. Qed.

(** A TLS configuration error is printed and [run] returns: no route, no
    server. *)
Example tls_error_returns :
  fst (run (withTLSError quietWorld "no certificate") tlsCli [] initState) = Return /\
  trace (snd (run (withTLSError quietWorld "no certificate") tlsCli [] initState)) =
    [log_Init; fmt_Println "no certificate"] /\
  router (snd (run (withTLSError quietWorld "no certificate") tlsCli [] initState)) = [].
Proof. repeat split; reflexivity. Qed.

(** An error of [service.Run] is fatal, and the server is then never
    stopped. *)
Example run_error_is_fatal :
  fst (run (demoWorld [] [] [] None (Some "registry down") None) plainCli [] initState)
    = Exit 1 /\
  filter (fun e => lifecycleEvent e || logEvent e)
    (trace (snd (run (demoWorld [] [] [] None (Some "registry down") None)
                   plainCli [] initState))) =
  [ev_ServerStart; ev_ServiceRun; log_Fatal "registry down"].
Proof. repeat split; reflexivity. Qed.


(** ** Go strings *)

Section StringFacts.

Lemma len_app (a b : string) : len (a ++ b) = len a + len b.
Proof. unfold len. induction a as [|c a IH]; simpl; [reflexivity | now rewrite IH]. Qed.

Lemma drop_app (a b : string) : drop (len a) (a ++ b) = b.
Proof. induction a as [|c a IH]; simpl; auto. Qed.

Lemma take_app (a b : string) : take (len a) (a ++ b) = a.
Proof. induction a as [|c a IH]; simpl; [now destruct b | now rewrite IH]. Qed.

Lemma HasSuffix_app (a suffix : string) : HasSuffix (a ++ suffix) suffix = true.
Proof.
  unfold HasSuffix. rewrite len_app.
  replace (len a + len suffix - len suffix) with (len a) by lia.
  rewrite drop_app, String.eqb_refl, andb_true_r.
  apply Nat.leb_le. lia.
Qed.

Lemma TrimSuffix_app (a suffix : string) : TrimSuffix (a ++ suffix) suffix = a.
Proof.
  unfold TrimSuffix. rewrite HasSuffix_app, len_app.
  replace (len a + len suffix - len suffix) with (len a) by lia.
  apply take_app.
Qed.

Lemma TrimSuffix_none (s suffix : string) :
  HasSuffix s suffix = false -> TrimSuffix s suffix = s.
Proof. unfold TrimSuffix. now intros ->. Qed.

Lemma nonempty_true (s : string) : s <> "" -> nonempty s = true.
Proof. destruct s; [congruence | reflexivity]. Qed.

Lemma nonempty_app_r (a b : string) : b <> "" -> nonempty (a ++ b) = true.
Proof.
  intros Hb. unfold nonempty. rewrite len_app. apply Nat.ltb_lt.
  destruct b; [congruence | simpl; lia].
Qed.

Lemma len_zero (s : string) : Nat.eqb (len s) 0 = true <-> s = "".
Proof. destruct s; simpl; split; congruence. Qed.

End StringFacts.

(** ** Flag overrides *)

Section Flags.

Variable ctx : Context.
Variable g : Globals.

Ltac flags := unfold applyFlags; cbv zeta;
  repeat
    (unfold whenSet at 1;
     match goal with |- context [nonempty ?s] => destruct (nonempty s) end;
     cbn [Name Address Handler Resolver RPCPath APIPath ProxyPath Namespace
          Type_ HeaderPrefix EnableRPC ACMEProvider ACMEChallengeProvider ACMECA
          setName setAddress setHandler setResolver setEnableRPC
          setACMEProvider setType setNamespace]);
  reflexivity.

Lemma whenSet_keep {A} (proj : Globals -> A) (flag : string)
    (assign : Globals -> Globals) (g0 : Globals) :
  (forall x, proj (assign x) = proj x) -> proj (whenSet ctx flag assign g0) = proj g0.
Proof. intros H. unfold whenSet. destruct (nonempty _); auto. Qed.

Lemma applyFlags_Type :
  Type_ (applyFlags ctx g) =
  if nonempty (ctx_String ctx "type") then ctx_String ctx "type" else Type_ g.
Proof. flags. Qed.

Lemma applyFlags_Namespace :
  Namespace (applyFlags ctx g) =
  if nonempty (ctx_String ctx "namespace")
  then TrimSuffix (ctx_String ctx "namespace")
         ("." ++ if nonempty (ctx_String ctx "type") then ctx_String ctx "type" else Type_ g)
  else Namespace g.
Proof. flags. Qed.

Lemma applyFlags_EnableRPC :
  EnableRPC (applyFlags ctx g) =
  if nonempty (ctx_String ctx "enable_rpc") then ctx_Bool ctx "enable_rpc" else EnableRPC g.
Proof. flags. Qed.

Lemma applyFlags_ACMEProvider :
  ACMEProvider (applyFlags ctx g) =
  if nonempty (ctx_String ctx "acme_provider")
  then ctx_String ctx "acme_provider" else ACMEProvider g.
Proof. flags. Qed.

Lemma applyFlags_Handler :
  Handler (applyFlags ctx g) =
  if nonempty (ctx_String ctx "handler") then ctx_String ctx "handler" else Handler g.
Proof. flags. Qed.

(** The variables no flag assigns keep their value. *)
Lemma applyFlags_fixed :
  RPCPath (applyFlags ctx g) = RPCPath g /\
  APIPath (applyFlags ctx g) = APIPath g /\
  ProxyPath (applyFlags ctx g) = ProxyPath g /\
  ACMEChallengeProvider (applyFlags ctx g) = ACMEChallengeProvider g /\
  ACMECA (applyFlags ctx g) = ACMECA g.
Proof.
  unfold applyFlags; cbv zeta.
  repeat split; repeat (rewrite whenSet_keep by (intros; reflexivity)); reflexivity.
Qed.

End Flags.

(** ** Namespace normalization *)

(** C2, amended: for a non-empty type T and a non-empty root R that does
    not itself end in "."+T, the namespace flag R+"."+T and the namespace
    flag R give the same result: in both cases the root is R and the api
    namespace is R+"."+T. *)
Theorem namespace_suffix_stripped (R T : string) (ctxA ctxB : Context) (g : Globals) :
  R <> "" -> T <> "" -> HasSuffix R ("." ++ T) = false ->
  ctx_String ctxA "namespace" = R ++ "." ++ T -> ctx_String ctxA "type" = T ->
  ctx_String ctxB "namespace" = R -> ctx_String ctxB "type" = T ->
  Namespace (applyFlags ctxA g) = R /\
  Namespace (applyFlags ctxB g) = R /\
  apiNamespace (applyFlags ctxA g) = R ++ "." ++ T /\
  apiNamespace (applyFlags ctxB g) = apiNamespace (applyFlags ctxA g).
Proof.
  intros HR HT Hsuf HnsA HtyA HnsB HtyB.
  assert (TA : Type_ (applyFlags ctxA g) = T)
    by (rewrite applyFlags_Type, HtyA, nonempty_true; auto).
  assert (TB : Type_ (applyFlags ctxB g) = T)
    by (rewrite applyFlags_Type, HtyB, nonempty_true; auto).
  assert (NA : Namespace (applyFlags ctxA g) = R).
  { rewrite applyFlags_Namespace, HtyA, HnsA, (nonempty_true T) by assumption.
    rewrite nonempty_app_r by discriminate. apply TrimSuffix_app. }
  assert (NB : Namespace (applyFlags ctxB g) = R).
  { rewrite applyFlags_Namespace, HtyB, HnsB, !nonempty_true by assumption.
    now apply TrimSuffix_none. }
  unfold apiNamespace. rewrite NA, NB, TA, TB. auto.
Qed.

(** The example of the specification: "go.micro.api" with type "api" gives
    root "go.micro" and api namespace "go.micro.api". *)
Lemma namespace_suffix_stripped_witness :
  Namespace (applyFlags (cli [("namespace", "go.micro.api"); ("type", "api")] [] "") initGlobals)
    = "go.micro" /\
  Namespace (applyFlags (cli [("namespace", "go.micro"); ("type", "api")] [] "") initGlobals)
    = "go.micro" /\
  apiNamespace (applyFlags (cli [("namespace", "go.micro.api"); ("type", "api")] [] "") initGlobals)
    = "go.micro.api" /\
  apiNamespace (applyFlags (cli [("namespace", "go.micro"); ("type", "api")] [] "") initGlobals)
    = apiNamespace
        (applyFlags (cli [("namespace", "go.micro.api"); ("type", "api")] [] "") initGlobals).
Proof.
  apply (namespace_suffix_stripped "go.micro" "api"); try reflexivity; discriminate.
Defined.

(** C2 as stated fails when the root itself ends in "."+T: only one
    suffix is stripped, so the inputs "go.micro.api.api" and
    "go.micro.api" (root "go.micro.api", type "api") give different api
    namespaces, the first of them "go.micro.api.api". *)
Lemma namespace_not_idempotent :
  apiNamespace
    (applyFlags (cli [("namespace", "go.micro.api" ++ "." ++ "api"); ("type", "api")] [] "")
       initGlobals) = "go.micro.api.api" /\
  apiNamespace
    (applyFlags (cli [("namespace", "go.micro.api"); ("type", "api")] [] "") initGlobals)
    = "go.micro.api".
Proof. split; reflexivity. Qed.

(** An empty namespace flag leaves the variable at its default, so the
    root "" is not recovered from the input ".api". *)
Example namespace_empty_root :
  apiNamespace (applyFlags (cli [("namespace", ".api"); ("type", "api")] [] "") initGlobals)
    = ".api" /\
  apiNamespace (applyFlags (cli [("namespace", ""); ("type", "api")] [] "") initGlobals)
    = "go.micro.api".
Proof. split; reflexivity. Qed.

(** An empty type flag leaves the type at its default "api". *)
Example namespace_empty_type :
  apiNamespace (applyFlags (cli [("namespace", "com.example."); ("type", "")] [] "") initGlobals)
    = "com.example..api" /\
  apiNamespace (applyFlags (cli [("namespace", "com.example"); ("type", "")] [] "") initGlobals)
    = "com.example.api".
Proof. split; reflexivity. Qed.

(** ** Reverse wrapping of the plugins *)

Section Wrapping.

Variable plugins : list Plugin.

(** The loop from index [i] wraps with the first [i] plugins, the first
    of them outermost. *)
Lemma wrapFrom_firstn (i : nat) (h : HttpHandler) :
  i <= length plugins ->
  wrapFrom plugins i h = Some (wrapAll (firstn i plugins) h).
Proof.
  revert h. induction i as [|j IH]; intros h Hi; cbn [wrapFrom].
  - reflexivity.
  - destruct (nth_error plugins j) as [p|] eqn:Hp.
    + rewrite IH by lia. f_equal.
      assert (Hsplit : firstn (S j) plugins = (firstn j plugins ++ [p])%list).
      { clear IH h. revert j Hi Hp.
        induction plugins as [|q qs IHq]; intros j Hi Hp.
        - destruct j; discriminate.
        - destruct j as [|j]; simpl in *.
          + now inversion Hp.
          + f_equal. apply IHq; [lia | assumption]. }
      rewrite Hsplit. unfold wrapAll. now rewrite fold_right_app.
    + apply nth_error_None in Hp. lia.
Qed.

End Wrapping.

Lemma reverseWrap_total (W : World) (h : HttpHandler) :
  reverseWrap W h = Some (wrapAll (Plugins W ++ plugin_Plugins W) h).
Proof. unfold reverseWrap. rewrite wrapFrom_firstn by lia. now rewrite firstn_all. Qed.

(** ** The blocks of [run] as state transformers *)

Section Blocks.

Variable W : World.
Variable ctx : Context.

Lemma bind_value {A B} (m : M A) (k : A -> M B) (s s' : State) (a : A) :
  m s = (Value a, s') -> bind m k s = k a s'.
Proof. unfold bind. now intros ->. Qed.

Lemma state_eta (s : State) : mkState (globals s) (router s) (trace s) = s.
Proof. now destruct s. Qed.

Lemma initPlugins_spec (ps : list Plugin) (s : State) :
  initPlugins ps s =
  (Value tt, mkState (globals s) (router s)
               (trace s ++ map (fun p => ev_PluginInit (plugin_String p)) ps)).
Proof.
  revert s. induction ps as [|p ps IH]; intros s; simpl.
  - rewrite app_nil_r, state_eta. reflexivity.
  - unfold bind, emit. rewrite IH. simpl. now rewrite <- app_assoc.
Qed.

Lemma statsBlock_spec (s : State) :
  statsBlock W ctx s =
  (Value (ctx_Bool ctx "enable_stats"),
   mkState (globals s) (router s ++ statsRoutes W ctx)
     (trace s ++ if ctx_Bool ctx "enable_stats" then [ev_StatsNew; ev_StatsStart] else [])).
Proof.
  unfold statsBlock, statsRoutes.
  destruct (ctx_Bool ctx "enable_stats"); cbn.
  - now rewrite <- app_assoc.
  - now rewrite !app_nil_r, state_eta.
Qed.

Lemma rpcBlock_spec (s : State) :
  rpcBlock W s =
  (Value tt,
   mkState (globals s) (router s ++ rpcRoutes W (globals s))
     (trace s ++ if EnableRPC (globals s)
                 then [log_Infof ("Registering RPC Handler at " ++ RPCPath (globals s))]
                 else [])).
Proof.
  unfold rpcBlock, rpcRoutes, bind, getGlobals, when.
  destruct (EnableRPC (globals s)); cbn.
  - reflexivity.
  - now rewrite !app_nil_r, state_eta.
Qed.

Lemma handlerBlock_spec (srvOpts : list MicroOption) (s : State) :
  handlerBlock W (apiNamespace (globals s)) (theResolver (globals s))
    (theNamespaceResolver (globals s)) (theService ctx (globals s) srvOpts) s =
  (Value tt,
   mkState (globals s) (router s ++ [strategyRoute W ctx (globals s) srvOpts])
     (trace s ++ [log_Infof (strategyLog (globals s))])).
Proof.
  unfold handlerBlock, strategyRoute, strategyTemplate, strategyHandler, strategyLog,
    isProxy, bind, getGlobals.
  cbn.
  destruct (String.eqb_spec (Handler (globals s)) "rpc") as [E|_]; [now rewrite E |].
  destruct (String.eqb_spec (Handler (globals s)) "api") as [E|_]; [now rewrite E |].
  destruct (String.eqb_spec (Handler (globals s)) "event") as [E|_]; [now rewrite E |].
  destruct (String.eqb (Handler (globals s)) "http" || String.eqb (Handler (globals s)) "proxy");
    [reflexivity |].
  destruct (String.eqb (Handler (globals s)) "web"); reflexivity.
Qed.

Lemma lifecycle_spec (s : State) :
  lifecycle W s =
  (lifecycleOutcome W, mkState (globals s) (router s) (trace s ++ lifecycleEvents W)).
Proof.
  unfold lifecycle, lifecycleOutcome, lifecycleEvents, orFatal, Fatal, os_Exit, bind, emit, ret.
  cbn.
  destruct (api_Start W); cbn; [now rewrite <- app_assoc |].
  destruct (service_Run W); cbn; [now rewrite <- !app_assoc |].
  destruct (api_Stop W); cbn; now rewrite <- !app_assoc.
Qed.

End Blocks.

(** ** [run] as a whole *)

Section Run.

Variable W : World.
Variable ctx : Context.

(** The TLS block registers no route and assigns no variable; it logs at
    most one line, and only when it leaves [run]. *)
Lemma tlsOptions_frame (s s' : State) (out : Outcome (list ServerOption)) :
  tlsOptions W ctx s = (out, s') ->
  globals s' = globals s /\ router s' = router s /\
  exists evs, trace s' = (trace s ++ evs)%list /\ forallb logEvent evs = true /\
    match out with
    | Value _ => evs = []
    | Exit c => c = 1%Z /\ exists msg, evs = [log_Fatal msg]
    | Return => exists msg, evs = [fmt_Println msg]
    | Panic => False
    end.
Proof.
  unfold tlsOptions, certmagicProvider, Fatal, os_Exit, returnFromRun, when, bind,
    getGlobals, emit, ret.
  intros H.
  repeat match type of H with
  | context [if ?b then _ else _] => destruct b
  | context [match ?x with inl _ => _ | inr _ => _ end] => destruct x
  end; cbn in H; inversion H; subst; cbn;
  (repeat split; try reflexivity);
  first [ exists []; rewrite app_nil_r; repeat split; reflexivity
        | eexists; repeat split; eauto ].
Qed.

Lemma lifecycleOutcome_cases :
  lifecycleOutcome W = Value tt \/ lifecycleOutcome W = Exit 1.
Proof.
  unfold lifecycleOutcome.
  destruct (api_Start W), (service_Run W), (api_Stop W); auto.
Qed.

(** [run] is the flag overrides and the plugin initialisation, then the
    TLS block, and, unless that block leaves, the rest of the setup
    followed by the three lifecycle calls. *)
Lemma run_spec (srvOpts : list MicroOption) (s : State) :
  run W ctx srvOpts s =
  match tlsOptions W ctx (configuredState W ctx s) with
  | (Value opts, s2) => (lifecycleOutcome W, finishedState W ctx srvOpts opts s2)
  | (Exit c, s2) => (Exit c, s2)
  | (Return, s2) => (Return, s2)
  | (Panic, s2) => (Panic, s2)
  end.
Proof.
  unfold run.
  unfold bind at 1. unfold emit at 1.
  unfold bind at 1. unfold getGlobals at 1.
  unfold bind at 1. unfold setGlobals at 1.
  unfold bind at 1. unfold getGlobals at 1.
  unfold bind at 1. rewrite initPlugins_spec.
  cbn [globals router trace].
  fold (pluginInits W). rewrite <- app_assoc. cbn [app].
  fold (configuredState W ctx s).
  unfold bind at 1.
  destruct (tlsOptions W ctx (configuredState W ctx s)) as [[opts|c| |] s2] eqn:Htls;
    try reflexivity.
  apply tlsOptions_frame in Htls. destruct Htls as (Hg & Hr & _).
  cbn in Hg, Hr. rewrite <- Hg.
  erewrite bind_value by apply statsBlock_spec.
  unfold HandleFunc, addRoute, bind at 1.
  unfold bind at 1. unfold bind at 1. unfold emit at 1.
  unfold bind at 1. rewrite rpcBlock_spec.
  cbn [globals router trace].
  erewrite bind_value.
  2:{ match goal with |- handlerBlock _ _ _ _ _ ?st = _ =>
        exact (handlerBlock_spec W ctx srvOpts st) end. }
  unfold bind at 1. unfold getRouter at 1.
  cbn [globals router trace].
  unfold bind at 1. rewrite reverseWrap_total. unfold ret at 1.
  unfold bind at 1. unfold emit at 1.
  unfold bind at 1. unfold emit at 1.
  unfold bind at 1. unfold emit at 1.
  unfold bind at 1. rewrite lifecycle_spec.
  cbn [globals router trace].
  unfold finishedState, deferredEvents, routeTable, setupEvents, servedHandler,
    fixedRoutes, theResolver, theNamespaceResolver.
  destruct lifecycleOutcome_cases as [E|E]; rewrite E.
  - unfold when, emit, ret.
    destruct (ctx_Bool ctx "enable_stats"); cbn [globals router trace];
      repeat rewrite <- app_assoc; cbn [app]; rewrite ?app_nil_r; reflexivity.
  - repeat rewrite <- app_assoc; cbn [app]; rewrite ?app_nil_r; reflexivity.
Qed.

Lemma pluginInits_no_server_event : existsb serverEvent (pluginInits W) = false.
Proof. unfold pluginInits. induction (Plugins W); simpl; auto. Qed.

Lemma pluginInits_not_started : ~ In ev_ServerStart (pluginInits W).
Proof.
  unfold pluginInits. intros H. apply in_map_iff in H.
  destruct H as (p & E & _). discriminate.
Qed.

(** When the TLS block exits with a fatal message, [run] ends there: exit
    status 1, no route registered, and after the initial events only the
    fatal log line, so nothing was asked of the gateway server. *)
Lemma run_fatal_in_tls (srvOpts : list MicroOption) (s : State) (msg : string) :
  tlsOptions W ctx (configuredState W ctx s) =
    (Exit 1, mkState (applyFlags ctx (globals s)) (router s)
               (trace (configuredState W ctx s) ++ [log_Fatal msg])) ->
  run W ctx srvOpts s =
    (Exit 1, mkState (applyFlags ctx (globals s)) (router s)
               (trace s ++ log_Init :: pluginInits W ++ [log_Fatal msg])) /\
  existsb serverEvent (log_Init :: pluginInits W ++ [log_Fatal msg]) = false.
Proof.
  intros H. rewrite run_spec, H. split.
  - cbn. now rewrite <- app_assoc.
  - cbn. now rewrite existsb_app, pluginInits_no_server_event.
Qed.

End Run.

(** ** The ACME block *)

Section ACME.

Variable W : World.
Variable ctx : Context.

Lemma certmagic_missing_env (s : State) :
  ctx_Bool ctx "enable_acme" = true ->
  ACMEProvider (globals s) = "certmagic" ->
  os_Getenv W "CF_API_TOKEN" = "" \/ os_Getenv W "CF_ACCOUNT_ID" = "" \/
  os_Getenv W "KV_NAMESPACE_ID" = "" ->
  exists msg,
    tlsOptions W ctx s =
    (Exit 1, mkState (globals s) (router s) (trace s ++ [log_Fatal msg])).
Proof.
  intros Hacme Hprov Henv.
  unfold tlsOptions, bind, getGlobals. rewrite Hacme, Hprov. cbn.
  unfold certmagicProvider, bind, getGlobals, when, Fatal, os_Exit, emit, ret, bind.
  destruct (String.eqb (ACMEChallengeProvider (globals s)) "cloudflare"); cbn;
    [| eexists; reflexivity].
  destruct (Nat.eqb (len (os_Getenv W "CF_API_TOKEN")) 0 ||
            Nat.eqb (len (os_Getenv W "CF_ACCOUNT_ID")) 0) eqn:E1; cbn;
    [eexists; reflexivity |].
  destruct (Nat.eqb (len (os_Getenv W "KV_NAMESPACE_ID")) 0) eqn:E2; cbn;
    [eexists; reflexivity |].
  apply orb_false_iff in E1. destruct E1 as [E0 E1].
  destruct Henv as [H | [H | H]]; rewrite H in *; discriminate.
Qed.

Lemma bad_provider_tls (s : State) :
  ctx_Bool ctx "enable_acme" = true ->
  (ACMEProvider (globals s) <> "autocert" /\ ACMEProvider (globals s) <> "certmagic") \/
  (ACMEProvider (globals s) = "certmagic" /\
   ACMEChallengeProvider (globals s) <> "cloudflare") ->
  tlsOptions W ctx s =
  (Exit 1,
   mkState (globals s) (router s)
     (trace s ++
      [log_Fatal
         (if String.eqb (ACMEProvider (globals s)) "certmagic"
          then "The only implemented DNS challenge provider is cloudflare"
          else ACMEProvider (globals s) ++ " is not a valid ACME provider" ++
               String "010"%char "")])).
Proof.
  intros Hacme [[Ha Hc] | [Hc Hch]];
    unfold tlsOptions, bind, getGlobals; rewrite Hacme.
  - apply String.eqb_neq in Ha, Hc. rewrite Ha, Hc. reflexivity.
  - rewrite Hc. cbn. apply String.eqb_neq in Hch.
    unfold certmagicProvider, bind, getGlobals, when. rewrite Hch. reflexivity.
Qed.

Lemma certmagic_tls (s : State) (tok acc kv : string) (cp : ChallengeProvider) :
  ctx_Bool ctx "enable_acme" = true ->
  ACMEProvider (globals s) = "certmagic" ->
  ACMEChallengeProvider (globals s) = "cloudflare" ->
  os_Getenv W "CF_API_TOKEN" = tok -> tok <> "" ->
  os_Getenv W "CF_ACCOUNT_ID" = acc -> acc <> "" ->
  os_Getenv W "KV_NAMESPACE_ID" = kv -> kv <> "" ->
  cloudflare_NewDNSProviderConfig W (mkCloudflareConfig tok tok) = inl cp ->
  tlsOptions W ctx s =
  (Value
     [server_EnableACME true;
      server_ACMEHosts (helper_ACMEHosts W ctx);
      server_ACMEProvider
        (certmagic_NewProvider
           [acme_AcceptToS true;
            acme_CA (ACMECA (globals s));
            acme_Cache
              (certmagic_NewStorage memory_NewSync
                 (cfstore_NewStore
                    [cfstore_Token tok; cfstore_Account acc; cfstore_Namespace kv;
                     cfstore_CacheTTL (60 * Second)]));
            acme_ChallengeProvider cp;
            acme_OnDemand false])],
   s).
Proof.
  intros Hacme Hprov Hch Htok Htok' Hacc Hacc' Hkv Hkv' Hcp.
  unfold tlsOptions, bind, getGlobals. rewrite Hacme, Hprov. cbn.
  unfold certmagicProvider, bind, getGlobals, when. rewrite Hch, Htok, Hacc, Hkv, Hcp.
  destruct tok; [congruence |]. destruct acc; [congruence |]. destruct kv; [congruence |].
  reflexivity.
Qed.

End ACME.

(** C3: with ACME enabled and provider "certmagic", if CF_API_TOKEN,
    CF_ACCOUNT_ID or KV_NAMESPACE_ID is empty, [run] logs a fatal message
    and exits with status 1; it has registered no route and the events
    before the exit are the logger and plugin initialisation only: the
    gateway server was never created, initialised or started. *)
Theorem certmagic_env_required (W : World) (ctx : Context)
    (srvOpts : list MicroOption) (s : State) :
  ctx_Bool ctx "enable_acme" = true ->
  ACMEProvider (applyFlags ctx (globals s)) = "certmagic" ->
  os_Getenv W "CF_API_TOKEN" = "" \/ os_Getenv W "CF_ACCOUNT_ID" = "" \/
  os_Getenv W "KV_NAMESPACE_ID" = "" ->
  exists msg,
    run W ctx srvOpts s =
      (Exit 1, mkState (applyFlags ctx (globals s)) (router s)
                 (trace s ++ log_Init :: pluginInits W ++ [log_Fatal msg])) /\
    existsb serverEvent (log_Init :: pluginInits W ++ [log_Fatal msg]) = false.
Proof.
  intros Hacme Hprov Henv.
  destruct (certmagic_missing_env W ctx (configuredState W ctx s) Hacme Hprov Henv)
    as [msg Htls].
  exists msg. apply run_fatal_in_tls. exact Htls.
Qed.

(** Startup with provider "certmagic" and CF_API_TOKEN missing. *)
Lemma certmagic_env_required_witness :
  exists msg,
    run noTokenWorld certmagicCli [] initState =
      (Exit 1,
       mkState (applyFlags certmagicCli initGlobals) []
         ([] ++ log_Init :: pluginInits noTokenWorld ++ [log_Fatal msg])) /\
    existsb serverEvent (log_Init :: pluginInits noTokenWorld ++ [log_Fatal msg]) = false.
Proof.
  apply (certmagic_env_required noTokenWorld certmagicCli [] initState).
  - reflexivity.
  - reflexivity.
  - left. reflexivity.
Defined.

(** C6: with ACME enabled, a provider name other than "autocert" and
    "certmagic", or under "certmagic" a challenge provider other than
    "cloudflare", makes [run] log the fatal message and exit with status
    1 at once: one fatal line after the initial events, no route, no
    server event, nothing tried again. *)
Theorem bad_acme_provider_fatal (W : World) (ctx : Context)
    (srvOpts : list MicroOption) (s : State) :
  ctx_Bool ctx "enable_acme" = true ->
  (ACMEProvider (applyFlags ctx (globals s)) <> "autocert" /\
   ACMEProvider (applyFlags ctx (globals s)) <> "certmagic") \/
  (ACMEProvider (applyFlags ctx (globals s)) = "certmagic" /\
   ACMEChallengeProvider (applyFlags ctx (globals s)) <> "cloudflare") ->
  run W ctx srvOpts s =
    (Exit 1,
     mkState (applyFlags ctx (globals s)) (router s)
       (trace s ++ log_Init :: pluginInits W ++
        [log_Fatal
           (if String.eqb (ACMEProvider (applyFlags ctx (globals s))) "certmagic"
            then "The only implemented DNS challenge provider is cloudflare"
            else ACMEProvider (applyFlags ctx (globals s)) ++
                 " is not a valid ACME provider" ++ String "010"%char "")])) /\
  existsb serverEvent
    (log_Init :: pluginInits W ++
     [log_Fatal
        (if String.eqb (ACMEProvider (applyFlags ctx (globals s))) "certmagic"
         then "The only implemented DNS challenge provider is cloudflare"
         else ACMEProvider (applyFlags ctx (globals s)) ++
              " is not a valid ACME provider" ++ String "010"%char "")]) = false.
Proof.
  intros Hacme Hbad.
  apply run_fatal_in_tls.
  exact (bad_provider_tls W ctx (configuredState W ctx s) Hacme Hbad).
Qed.

(** The provider name "letsencrypt" is refused. *)
Lemma bad_acme_provider_fatal_witness :
  run noTokenWorld unknownProviderCli [] initState =
    (Exit 1,
     mkState (applyFlags unknownProviderCli initGlobals) []
       [log_Init; ev_PluginInit "A";
        log_Fatal ("letsencrypt is not a valid ACME provider" ++ String "010"%char "")]) /\
  existsb serverEvent
    [log_Init; ev_PluginInit "A";
     log_Fatal ("letsencrypt is not a valid ACME provider" ++ String "010"%char "")] = false.
Proof.
  apply (bad_acme_provider_fatal noTokenWorld unknownProviderCli [] initState).
  - reflexivity.
  - left. split; discriminate.
Defined.

(** Under "certmagic", a challenge provider other than cloudflare is
    refused before the environment is read. *)
Example bad_challenge_provider_fatal :
  fst (run noTokenWorld certmagicCli []
         (startState (mkGlobals "go.micro.api" ":8080" "meta" "micro" "/rpc" "/"
                        "/{service:[a-zA-Z0-9]+}" "go.micro" "api" "X-Micro-" false
                        "autocert" "route53" LetsEncryptProductionCA))) = Exit 1 /\
  trace (snd (run noTokenWorld certmagicCli []
         (startState (mkGlobals "go.micro.api" ":8080" "meta" "micro" "/rpc" "/"
                        "/{service:[a-zA-Z0-9]+}" "go.micro" "api" "X-Micro-" false
                        "autocert" "route53" LetsEncryptProductionCA)))) =
  [log_Init; ev_PluginInit "A";
   log_Fatal "The only implemented DNS challenge provider is cloudflare"].
Proof. split; reflexivity. Qed.

(** C5: with ACME enabled, provider "certmagic", challenge provider
    "cloudflare", the three environment variables set and the challenge
    client built, the TLS block yields the certmagic provider made with
    exactly: terms accepted, the Let's Encrypt production CA, a storage of
    the in-memory sync over the cloudflare store (token, account, KV
    namespace, cache TTL of 60 seconds), the cloudflare challenge client
    for the API token, and on-demand issuance off; and the server is
    initialised with these options. *)
Theorem certmagic_provisioner (W : World) (ctx : Context) (srvOpts : list MicroOption)
    (s : State) (tok acc kv : string) (cp : ChallengeProvider) :
  ctx_Bool ctx "enable_acme" = true ->
  ACMEProvider (applyFlags ctx (globals s)) = "certmagic" ->
  ACMEChallengeProvider (globals s) = "cloudflare" ->
  ACMECA (globals s) = LetsEncryptProductionCA ->
  os_Getenv W "CF_API_TOKEN" = tok -> tok <> "" ->
  os_Getenv W "CF_ACCOUNT_ID" = acc -> acc <> "" ->
  os_Getenv W "KV_NAMESPACE_ID" = kv -> kv <> "" ->
  cloudflare_NewDNSProviderConfig W (mkCloudflareConfig tok tok) = inl cp ->
  let opts :=
    [server_EnableACME true;
     server_ACMEHosts (helper_ACMEHosts W ctx);
     server_ACMEProvider
       (certmagic_NewProvider
          [acme_AcceptToS true;
           acme_CA LetsEncryptProductionCA;
           acme_Cache
             (certmagic_NewStorage memory_NewSync
                (cfstore_NewStore
                   [cfstore_Token tok; cfstore_Account acc; cfstore_Namespace kv;
                    cfstore_CacheTTL (60 * Second)]));
           acme_ChallengeProvider cp;
           acme_OnDemand false])] in
  tlsOptions W ctx (configuredState W ctx s) = (Value opts, configuredState W ctx s) /\
  In (ev_ServerInit (corsOption ctx opts)) (trace (snd (run W ctx srvOpts s))).
Proof.
  intros Hacme Hprov Hch Hca Htok Htok' Hacc Hacc' Hkv Hkv' Hcp opts.
  assert (Htls : tlsOptions W ctx (configuredState W ctx s) =
                 (Value opts, configuredState W ctx s)).
  { destruct (applyFlags_fixed ctx (globals s)) as (_ & _ & _ & Fch & Fca).
    rewrite (certmagic_tls W ctx (configuredState W ctx s) tok acc kv cp); auto.
    - cbn [globals configuredState]. rewrite Fca, Hca. reflexivity.
    - cbn [globals configuredState]. now rewrite Fch. }
  split; [exact Htls |].
  rewrite run_spec, Htls. cbn [snd finishedState trace].
  apply in_or_app. right. apply in_or_app. left.
  unfold setupEvents. apply in_or_app. right. apply in_or_app. right.
  apply in_or_app. right. cbn. auto.
Qed.

(** Startup with the three variables set. *)
Lemma certmagic_provisioner_witness :
  tlsOptions quietWorld certmagicCli (configuredState quietWorld certmagicCli initState) =
    (Value
       [server_EnableACME true;
        server_ACMEHosts ["example.com"];
        server_ACMEProvider
          (certmagic_NewProvider
             [acme_AcceptToS true;
              acme_CA "https://acme-v02.api.letsencrypt.org/directory";
              acme_Cache
                (certmagic_NewStorage memory_NewSync
                   (cfstore_NewStore
                      [cfstore_Token "token"; cfstore_Account "account";
                       cfstore_Namespace "kv"; cfstore_CacheTTL 60000000000]));
              acme_ChallengeProvider
                (cloudflare_DNSProvider (mkCloudflareConfig "token" "token"));
              acme_OnDemand false])],
     configuredState quietWorld certmagicCli initState) /\
  In (ev_ServerInit
        [server_EnableACME true;
         server_ACMEHosts ["example.com"];
         server_ACMEProvider
           (certmagic_NewProvider
              [acme_AcceptToS true;
               acme_CA "https://acme-v02.api.letsencrypt.org/directory";
               acme_Cache
                 (certmagic_NewStorage memory_NewSync
                    (cfstore_NewStore
                       [cfstore_Token "token"; cfstore_Account "account";
                        cfstore_Namespace "kv"; cfstore_CacheTTL 60000000000]));
               acme_ChallengeProvider
                 (cloudflare_DNSProvider (mkCloudflareConfig "token" "token"));
               acme_OnDemand false])])
     (trace (snd (run quietWorld certmagicCli [] initState))).
Proof.
  apply (certmagic_provisioner quietWorld certmagicCli [] initState "token" "account" "kv"
           (cloudflare_DNSProvider (mkCloudflareConfig "token" "token")));
    first [reflexivity | discriminate].
Defined.

(** ** Start, run, stop *)

(** C4, amended: the gateway server is started, then the backend
    service's blocking Run is called, and only once Run has returned, the
    backend runtime having shut down, is the gateway server stopped.  An
    error of Start, of Run or of Stop is fatal: it is logged and the
    process exits with status 1, with no later call and no second try. *)
Theorem lifecycle_run_then_stop (W : World) (s : State) :
  lifecycle W s =
  match api_Start W, service_Run W, api_Stop W with
  | Some e, _, _ =>
    (Exit 1, mkState (globals s) (router s) (trace s ++ [ev_ServerStart; log_Fatal e]))
  | None, Some e, _ =>
    (Exit 1, mkState (globals s) (router s)
               (trace s ++ [ev_ServerStart; ev_ServiceRun; log_Fatal e]))
  | None, None, Some e =>
    (Exit 1, mkState (globals s) (router s)
               (trace s ++ [ev_ServerStart; ev_ServiceRun; ev_ServerStop; log_Fatal e]))
  | None, None, None =>
    (Value tt, mkState (globals s) (router s)
                 (trace s ++ [ev_ServerStart; ev_ServiceRun; ev_ServerStop]))
  end.
Proof.
  rewrite lifecycle_spec. unfold lifecycleOutcome, lifecycleEvents.
  destruct (api_Start W), (service_Run W), (api_Stop W); reflexivity.
Qed.

(** C4 as stated fails: in a complete run the server is not stopped
    before the backend's Run returns, but after it. *)
Lemma server_not_stopped_first :
  before isServerStop isServiceRun (trace (snd (run quietWorld plainCli [] initState)))
    = false /\
  before isServiceRun isServerStop (trace (snd (run quietWorld plainCli [] initState)))
    = true /\
  filter lifecycleEvent (trace (snd (run quietWorld plainCli [] initState)))
    = [ev_ServerStart; ev_ServiceRun; ev_ServerStop].
Proof. repeat split; reflexivity. Qed.

(** ** Route matching *)

Section Matching.

Import Mux.

Lemma matchAtoms_literal (t p : string) :
  matchAtoms true (map ALit (list_ascii_of_string t)) p = String.eqb t p.
Proof.
  revert p. induction t as [|c t IH]; intros p; simpl.
  - now destruct p.
  - destruct p as [|c' p]; [reflexivity |].
    rewrite IH. now destruct (Ascii.eqb c c').
Qed.

Lemma matches_path_literal (t p : string) :
  compile t = Some (map ALit (list_ascii_of_string t)) ->
  matches regexpTypePath t p = String.eqb t p.
Proof. intros H. unfold matches. rewrite H. apply matchAtoms_literal. Qed.

Lemma matches_stats (p : string) : matches regexpTypePath "/stats" p = String.eqb "/stats" p.
Proof. now apply matches_path_literal. Qed.

Lemma matches_root (p : string) : matches regexpTypePath "/" p = String.eqb "/" p.
Proof. now apply matches_path_literal. Qed.

Lemma matches_favicon (p : string) :
  matches regexpTypePath "/favicon.ico" p = String.eqb "/favicon.ico" p.
Proof. now apply matches_path_literal. Qed.

Lemma matches_rpc (p : string) : matches regexpTypePath "/rpc" p = String.eqb "/rpc" p.
Proof. now apply matches_path_literal. Qed.

(** The root prefix matches every path that begins with a slash. *)
Lemma matches_prefix_root (p : string) : matches regexpTypePrefix "/" p = slashFirst p.
Proof.
  unfold matches. change (compile "/") with (Some [ALit "/"%char]).
  destruct p as [|c p]; [reflexivity |].
  cbn [matchAtoms slashFirst]. rewrite andb_true_r. apply Ascii.eqb_sym.
Qed.

Lemma more_true (cls : charClass) (s : string) : more cls (fun _ => true) s = true.
Proof. now destruct s. Qed.

(** The proxy pattern matches a slash followed by one alphanumeric
    character, whatever comes after. *)
Lemma matches_prefix_proxy (p : string) :
  matches regexpTypePrefix "/{service:[a-zA-Z0-9]+}" p = slashAlnum p.
Proof.
  unfold matches.
  change (compile "/{service:[a-zA-Z0-9]+}")
    with (Some [ALit "/"%char;
                AVar (mkClass false [("a", "z"); ("A", "Z"); ("0", "9")]%char)]).
  destruct p as [|c [|c' p]]; cbn [matchAtoms slashAlnum].
  - reflexivity.
  - now rewrite andb_false_r.
  - change (matchAtoms false []) with (fun _ : string => true).
    rewrite more_true, andb_true_r. unfold alnum.
    now rewrite (Ascii.eqb_sym c).
Qed.

(** On a canonical path the router serves with the first matching
    route. *)
Lemma ServeHTTP_canonical (routes : list Route) (r : Request) (w : ResponseWriter) :
  cleanPath (URLPath r) = URLPath r ->
  ServeHTTP routes r w =
  match routeFor routes (URLPath r) with
  | Some rt => routeHandler rt r w
  | None => notFound r w
  end.
Proof.
  intros H. unfold ServeHTTP, dispatch. rewrite H, String.eqb_refl.
  now destruct (routeFor routes (URLPath r)).
Qed.

Lemma dispatch_serve_iff (routes : list Route) (p : string) (rt : Route) :
  dispatch routes p = Serve rt <-> cleanPath p = p /\ routeFor routes p = Some rt.
Proof.
  unfold dispatch. destruct (String.eqb_spec (cleanPath p) p) as [E | N].
  - destruct (routeFor routes p); split.
    + intros H. inversion H. auto.
    + intros [_ H]. now inversion H.
    + discriminate.
    + intros [_ H]. discriminate.
  - split; [discriminate | intros [E _]; contradiction].
Qed.

Lemma dispatch_redirect (routes : list Route) (p : string) :
  cleanPath p <> p -> dispatch routes p = Redirect (cleanPath p).
Proof. intros N. unfold dispatch. apply String.eqb_neq in N. now rewrite N. Qed.

Lemma joinRooted_slash (elems : list string) : slashFirst (joinRooted elems) = true.
Proof. destruct elems; reflexivity. Qed.

(** The canonical form always begins with a slash. *)
Lemma cleanPath_slash (p : string) : slashFirst (cleanPath p) = true.
Proof.
  destruct p as [|c t]; [reflexivity |].
  unfold cleanPath. cbv zeta.
  set (p1 := if Ascii.eqb c "/" then String c t else "/" ++ String c t).
  assert (Hnp : slashFirst (path_Clean p1) = true).
  { subst p1. destruct (Ascii.eqb c "/"); cbn [path_Clean append];
      apply joinRooted_slash. }
  destruct (lastIsSlash p1 && negb (String.eqb (path_Clean p1) "/")); [| exact Hnp].
  destruct (path_Clean p1); [discriminate | exact Hnp].
Qed.

Lemma not_slash_not_canonical (p : string) : slashFirst p = false -> cleanPath p <> p.
Proof. intros H E. pose proof (cleanPath_slash p) as Hs. rewrite E in Hs. congruence. Qed.

End Matching.

(** ** The route table of a started gateway *)

Section Routes.

Variable W : World.
Variable ctx : Context.
Variable srvOpts : list MicroOption.

(** If the server was started, the TLS block returned and the whole
    setup was done. *)
Lemma run_finished (g : Globals) (out : Outcome unit) (s' : State) :
  run W ctx srvOpts (startState g) = (out, s') ->
  In ev_ServerStart (trace s') ->
  exists opts,
    s' = finishedState W ctx srvOpts opts (configuredState W ctx (startState g)).
Proof.
  intros Hrun Hin. rewrite run_spec in Hrun.
  destruct (tlsOptions W ctx (configuredState W ctx (startState g)))
    as [o s2] eqn:Htls.
  apply tlsOptions_frame in Htls.
  destruct Htls as (Hg & Hr & evs & Htr & Hlog & Hout).
  assert (Hno : forall msg, In ev_ServerStart
                  (trace (configuredState W ctx (startState g)) ++ [msg]) ->
                logEvent msg = true -> False).
  { intros msg H Hm. cbn in H. destruct H as [H | H]; [discriminate |].
    apply in_app_or in H. destruct H as [H | [H | []]].
    - now apply pluginInits_not_started in H.
    - subst msg. discriminate. }
  destruct o as [opts|c| |].
  - subst evs. rewrite app_nil_r in Htr.
    assert (Es : s2 = configuredState W ctx (startState g)).
    { destruct s2. cbn in Hg, Hr, Htr. now subst. }
    subst s2. inversion Hrun. now exists opts.
  - destruct Hout as (_ & msg & ->). inversion Hrun; subst s'.
    rewrite Htr in Hin. now apply Hno in Hin.
  - destruct Hout as (msg & ->). inversion Hrun; subst s'.
    rewrite Htr in Hin. now apply Hno in Hin.
  - contradiction.
Qed.

(** Then the variables are the overridden ones and every route was
    registered. *)
Lemma run_started (g : Globals) (out : Outcome unit) (s' : State) :
  run W ctx srvOpts (startState g) = (out, s') ->
  In ev_ServerStart (trace s') ->
  globals s' = applyFlags ctx g /\
  router s' = routeTable W ctx (applyFlags ctx g) srvOpts.
Proof.
  intros Hrun Hin. destruct (run_finished g out s' Hrun Hin) as [opts ->].
  split; reflexivity.
Qed.

(** And the server was given the plugins wrapped around the router. *)
Lemma run_started_handle (g : Globals) (out : Outcome unit) (s' : State) :
  run W ctx srvOpts (startState g) = (out, s') ->
  In ev_ServerStart (trace s') ->
  In (ev_ServerHandle "/" (servedHandler W ctx (router s'))) (trace s').
Proof.
  intros Hrun Hin. destruct (run_finished g out s' Hrun Hin) as [opts ->].
  cbn [finishedState trace router].
  apply in_or_app. right. apply in_or_app. left.
  unfold setupEvents. apply in_or_app. right. apply in_or_app. right.
  apply in_or_app. right. cbn. auto.
Qed.

(** The route that serves a path: the first that matches, in
    registration order. *)
Lemma routeFor_table (g : Globals) (p : string) :
  Mux.routeFor (routeTable W ctx g srvOpts) p =
  if ctx_Bool ctx "enable_stats" && String.eqb "/stats" p
  then Some (Mux.mkRoute Mux.regexpTypePath "/stats" (stats_StatsHandler W))
  else if String.eqb "/" p
  then Some (Mux.mkRoute Mux.regexpTypePath "/" (rootHandler ctx))
  else if String.eqb "/favicon.ico" p
  then Some (Mux.mkRoute Mux.regexpTypePath "/favicon.ico" faviconHandler)
  else if EnableRPC g && Mux.matches Mux.regexpTypePath (RPCPath g) p
  then Some (Mux.mkRoute Mux.regexpTypePath (RPCPath g) (handler_RPC W))
  else if Mux.matches Mux.regexpTypePrefix (strategyTemplate g) p
  then Some (strategyRoute W ctx g srvOpts)
  else None.
Proof.
  unfold Mux.routeFor, routeTable, statsRoutes, fixedRoutes, rpcRoutes, strategyRoute.
  destruct (ctx_Bool ctx "enable_stats"), (EnableRPC g);
    cbn [app find Mux.routeType Mux.routeTemplate andb];
    rewrite ?matches_stats, ?matches_root, ?matches_favicon;
    repeat match goal with |- context [if ?b then _ else _] => destruct b end;
    reflexivity.
Qed.

End Routes.

Lemma started_by_existsb (tr : list Event) :
  existsb isServerStart tr = true -> In ev_ServerStart tr.
Proof.
  intros H. apply existsb_exists in H. destruct H as (e & Hin & He).
  destruct e; try discriminate. exact Hin.
Qed.

Ltac in_trace := apply started_by_existsb; vm_compute; reflexivity.

(** ** The root path *)

(** C8: in a started gateway, a request to "/" whose method is not
    OPTIONS is served by the root route, which writes the body
    {"version": "<app version>"} with the version of the command-line
    application. *)
Theorem root_writes_version (W : World) (ctx : Context) (srvOpts : list MicroOption)
    (g : Globals) (out : Outcome unit) (s' : State) (r : Request) (w : ResponseWriter) :
  run W ctx srvOpts (startState g) = (out, s') ->
  In ev_ServerStart (trace s') ->
  URLPath r = "/" -> Method r <> "OPTIONS" ->
  Mux.ServeHTTP (router s') r w = w_Write w (versionJSON (ctx_AppVersion ctx)) /\
  body (Mux.ServeHTTP (router s') r w) =
    body w ++ "{" ++ dq ++ "version" ++ dq ++ ": " ++ dq ++ ctx_AppVersion ctx ++ dq ++ "}".
Proof.
  intros Hrun Hin Hpath Hm.
  destruct (run_started W ctx srvOpts g out s' Hrun Hin) as [_ Hr].
  assert (E : Mux.ServeHTTP (router s') r w =
              w_Write w (versionJSON (ctx_AppVersion ctx))).
  { rewrite ServeHTTP_canonical by (now rewrite Hpath).
    rewrite Hr, routeFor_table, Hpath.
    rewrite andb_false_r. cbn [String.eqb Ascii.eqb Bool.eqb Mux.routeHandler].
    unfold rootHandler. apply String.eqb_neq in Hm. now rewrite Hm. }
  split; [exact E | now rewrite E].
Qed.

(** With version "1.2.3", GET / on a fresh writer gives the body of the
    specification's example. *)
Lemma root_writes_version_witness :
  Mux.ServeHTTP (router (snd (run quietWorld plainCli [] initState)))
    (mkRequest "GET" "/") emptyWriter = mkWriter 200 (versionJSON "1.2.3") /\
  body (Mux.ServeHTTP (router (snd (run quietWorld plainCli [] initState)))
          (mkRequest "GET" "/") emptyWriter) =
    "{" ++ dq ++ "version" ++ dq ++ ": " ++ dq ++ "1.2.3" ++ dq ++ "}".
Proof.
  apply (root_writes_version quietWorld plainCli [] initGlobals
           (fst (run quietWorld plainCli [] initState))
           (snd (run quietWorld plainCli [] initState))
           (mkRequest "GET" "/") emptyWriter).
  - apply surjective_pairing.
  - in_trace.
  - reflexivity.
  - discriminate.
Defined.

(** C9: in a started gateway, a request to "/" whose method is OPTIONS is
    served by the root route, which returns without writing: the writer
    is left as it was, so the body of a fresh response is empty. *)
Theorem root_options_writes_nothing (W : World) (ctx : Context)
    (srvOpts : list MicroOption) (g : Globals) (out : Outcome unit) (s' : State)
    (r : Request) (w : ResponseWriter) :
  run W ctx srvOpts (startState g) = (out, s') ->
  In ev_ServerStart (trace s') ->
  URLPath r = "/" -> Method r = "OPTIONS" ->
  Mux.ServeHTTP (router s') r w = w /\
  body (Mux.ServeHTTP (router s') r emptyWriter) = "".
Proof.
  intros Hrun Hin Hpath Hm.
  destruct (run_started W ctx srvOpts g out s' Hrun Hin) as [_ Hr].
  assert (E : forall w0, Mux.ServeHTTP (router s') r w0 = w0).
  { intros w0. rewrite ServeHTTP_canonical by (now rewrite Hpath).
    rewrite Hr, routeFor_table, Hpath.
    rewrite andb_false_r. cbn [String.eqb Ascii.eqb Bool.eqb Mux.routeHandler].
    unfold rootHandler. now rewrite Hm. }
  split; [apply E | now rewrite E].
Qed.

Lemma root_options_writes_nothing_witness :
  Mux.ServeHTTP (router (snd (run quietWorld plainCli [] initState)))
    (mkRequest "OPTIONS" "/") emptyWriter = emptyWriter /\
  body (Mux.ServeHTTP (router (snd (run quietWorld plainCli [] initState)))
          (mkRequest "OPTIONS" "/") emptyWriter) = "".
Proof.
  apply (root_options_writes_nothing quietWorld plainCli [] initGlobals
           (fst (run quietWorld plainCli [] initState))
           (snd (run quietWorld plainCli [] initState))
           (mkRequest "OPTIONS" "/") emptyWriter).
  - apply surjective_pairing.
  - in_trace.
  - reflexivity.
  - reflexivity.
Defined.

(** ** The RPC passthrough route *)

(** C7: in a started gateway a route is registered at path "/rpc" if and
    only if the RPC flag is on (the enable_rpc flag when given, the
    variable's value otherwise).  When it is on, "/rpc" is served by
    [handler.RPC]; when it is off, "/rpc" is served by the route of the
    selected handler, as any other path that matches its pattern. *)
Theorem rpc_route_iff_enabled (W : World) (ctx : Context) (srvOpts : list MicroOption)
    (g : Globals) (out : Outcome unit) (s' : State) :
  RPCPath g = "/rpc" -> APIPath g = "/" -> ProxyPath g = "/{service:[a-zA-Z0-9]+}" ->
  run W ctx srvOpts (startState g) = (out, s') ->
  In ev_ServerStart (trace s') ->
  EnableRPC (globals s') =
    (if nonempty (ctx_String ctx "enable_rpc")
     then ctx_Bool ctx "enable_rpc" else EnableRPC g) /\
  ((exists rt, In rt (router s') /\ routeKey rt = (Mux.regexpTypePath, "/rpc")) <->
   EnableRPC (globals s') = true) /\
  (EnableRPC (globals s') = true ->
   Mux.routeFor (router s') "/rpc" =
     Some (Mux.mkRoute Mux.regexpTypePath "/rpc" (handler_RPC W))) /\
  (EnableRPC (globals s') = false ->
   Mux.routeFor (router s') "/rpc" =
     Some (strategyRoute W ctx (applyFlags ctx g) srvOpts)).
Proof.
  intros Hrpc Hapi Hproxy Hrun Hin.
  destruct (run_started W ctx srvOpts g out s' Hrun Hin) as [Hg Hr].
  destruct (applyFlags_fixed ctx g) as (Frpc & Fapi & Fproxy & _).
  rewrite Hrpc in Frpc. rewrite Hapi in Fapi. rewrite Hproxy in Fproxy.
  rewrite Hg, Hr. split; [apply applyFlags_EnableRPC |].
  assert (Hmatch : Mux.matches Mux.regexpTypePrefix
                     (strategyTemplate (applyFlags ctx g)) "/rpc" = true).
  { unfold strategyTemplate. rewrite Fapi, Fproxy.
    destruct (isProxy (applyFlags ctx g)); reflexivity. }
  split; [| split].
  - unfold routeTable, statsRoutes, fixedRoutes, rpcRoutes. rewrite Frpc. split.
    + intros (rt & Hrt & Hkey).
      destruct (EnableRPC (applyFlags ctx g)); [reflexivity |].
      destruct (ctx_Bool ctx "enable_stats"); cbn in Hrt;
        repeat (destruct Hrt as [Hrt | Hrt]; [subst rt; discriminate |]);
        contradiction.
    + intros ->. exists (Mux.mkRoute Mux.regexpTypePath "/rpc" (handler_RPC W)).
      split; [| reflexivity].
      apply in_or_app. right. cbn. auto.
  - intros E. rewrite routeFor_table, E, Frpc.
    rewrite andb_false_r. reflexivity.
  - intros E. rewrite routeFor_table, E, Hmatch.
    rewrite andb_false_r. reflexivity.
Qed.

(** With the flag on the route is there and serves "/rpc". *)
Lemma rpc_route_iff_enabled_witness :
  EnableRPC (globals (snd (run quietWorld rpcCli [] initState))) =
    (if nonempty (ctx_String rpcCli "enable_rpc")
     then ctx_Bool rpcCli "enable_rpc" else EnableRPC initGlobals) /\
  ((exists rt, In rt (router (snd (run quietWorld rpcCli [] initState))) /\
               routeKey rt = (Mux.regexpTypePath, "/rpc")) <->
   EnableRPC (globals (snd (run quietWorld rpcCli [] initState))) = true) /\
  (EnableRPC (globals (snd (run quietWorld rpcCli [] initState))) = true ->
   Mux.routeFor (router (snd (run quietWorld rpcCli [] initState))) "/rpc" =
     Some (Mux.mkRoute Mux.regexpTypePath "/rpc" (handler_RPC quietWorld))) /\
  (EnableRPC (globals (snd (run quietWorld rpcCli [] initState))) = false ->
   Mux.routeFor (router (snd (run quietWorld rpcCli [] initState))) "/rpc" =
     Some (strategyRoute quietWorld rpcCli (applyFlags rpcCli initGlobals) [])).
Proof.
  apply (rpc_route_iff_enabled quietWorld rpcCli [] initGlobals
           (fst (run quietWorld rpcCli [] initState))
           (snd (run quietWorld rpcCli [] initState))).
  - reflexivity.
  - reflexivity.
  - reflexivity.
  - apply surjective_pairing.
  - in_trace.
Defined.

(** With the flag off, "/rpc" goes to the selected handler's route. *)
Example rpc_disabled_falls_through :
  option_map routeKey
    (Mux.routeFor (router (snd (run quietWorld plainCli [] initState))) "/rpc")
    = Some (Mux.regexpTypePrefix, "/") /\
  option_map routeKey
    (Mux.routeFor (router (snd (run quietWorld httpCli [] initState))) "/rpc")
    = Some (Mux.regexpTypePrefix, "/{service:[a-zA-Z0-9]+}").
Proof. split; reflexivity. Qed.

(** ** The route of the selected handler *)

Section Strategy.

Variable W : World.
Variable ctx : Context.
Variable srvOpts : list MicroOption.

(** A path reaches the selected handler exactly when its pattern matches
    and none of the exact routes registered before it takes the path. *)
Lemma strategy_reached (g : Globals) (p : string) :
  RPCPath g = "/rpc" ->
  Mux.routeFor (routeTable W ctx g srvOpts) p = Some (strategyRoute W ctx g srvOpts) <->
  Mux.matches Mux.regexpTypePrefix (strategyTemplate g) p = true /\
  p <> "/" /\ p <> "/favicon.ico" /\
  (ctx_Bool ctx "enable_stats" = true -> p <> "/stats") /\
  (EnableRPC g = true -> p <> "/rpc").
Proof.
  intros Hrpc. rewrite routeFor_table, Hrpc, matches_rpc. unfold strategyRoute.
  destruct (ctx_Bool ctx "enable_stats"), (EnableRPC g),
    (String.eqb_spec "/stats" p), (String.eqb_spec "/" p),
    (String.eqb_spec "/favicon.ico" p), (String.eqb_spec "/rpc" p),
    (Mux.matches Mux.regexpTypePrefix (strategyTemplate g) p);
    cbn [andb]; split;
    try (intros H; discriminate H);
    try (intros (H1 & H2 & H3 & H4 & H5); try discriminate H1;
         solve [ exfalso; auto | exfalso; apply H4; auto | exfalso; apply H5; auto ]);
    try (intros _; repeat split; congruence);
    try reflexivity.
Qed.

Lemma slashAlnum_not_root (p : string) : slashAlnum p = true -> p <> "/".
Proof. intros H E. subst p. discriminate. Qed.

End Strategy.

(** C10, amended: the handler of "http" or "proxy" is registered last,
    under the prefix pattern "/{service:[a-zA-Z0-9]+}".  The router
    answers a path that is not in canonical form with a redirect and
    calls no handler.  A request reaches the proxy handler exactly when
    its path is canonical, begins with a slash followed by one
    alphanumeric character (the rest of the first segment is free) and is
    not "/favicon.ico" nor, when these are registered, "/stats" or
    "/rpc".  The handler of every other name is registered last under the
    prefix "/", and a request reaches it exactly when its path is
    canonical, begins with a slash and is not "/", "/favicon.ico" nor a
    registered "/stats" or "/rpc". *)
Theorem strategy_route_patterns (W : World) (ctx : Context) (srvOpts : list MicroOption)
    (g : Globals) (out : Outcome unit) (s' : State) :
  RPCPath g = "/rpc" -> APIPath g = "/" -> ProxyPath g = "/{service:[a-zA-Z0-9]+}" ->
  run W ctx srvOpts (startState g) = (out, s') ->
  In ev_ServerStart (trace s') ->
  (exists earlier,
     router s' = (earlier ++ [strategyRoute W ctx (globals s') srvOpts])%list /\
     Forall (fun rt => Mux.routeType rt = Mux.regexpTypePath) earlier) /\
  (forall (r : Request) (w : ResponseWriter),
     Mux.cleanPath (URLPath r) <> URLPath r ->
     Mux.dispatch (router s') (URLPath r) = Mux.Redirect (Mux.cleanPath (URLPath r)) /\
     Mux.ServeHTTP (router s') r w = w_WriteHeader 301 w) /\
  (Handler (globals s') = "http" \/ Handler (globals s') = "proxy" ->
   strategyRoute W ctx (globals s') srvOpts =
     Mux.mkRoute Mux.regexpTypePrefix "/{service:[a-zA-Z0-9]+}"
       (packageHandler W ahttp (apiNamespace (globals s')) (theResolver (globals s'))
          (theService ctx (globals s') srvOpts)) /\
   (forall p,
      Mux.dispatch (router s') p = Mux.Serve (strategyRoute W ctx (globals s') srvOpts) <->
      Mux.cleanPath p = p /\ slashAlnum p = true /\ p <> "/favicon.ico" /\
      (ctx_Bool ctx "enable_stats" = true -> p <> "/stats") /\
      (EnableRPC (globals s') = true -> p <> "/rpc")) /\
   (forall (r : Request) (w : ResponseWriter),
      Mux.cleanPath (URLPath r) = URLPath r -> slashAlnum (URLPath r) = true ->
      URLPath r <> "/favicon.ico" ->
      (ctx_Bool ctx "enable_stats" = true -> URLPath r <> "/stats") ->
      (EnableRPC (globals s') = true -> URLPath r <> "/rpc") ->
      Mux.ServeHTTP (router s') r w =
        packageHandler W ahttp (apiNamespace (globals s')) (theResolver (globals s'))
          (theService ctx (globals s') srvOpts) r w)) /\
  (Handler (globals s') <> "http" -> Handler (globals s') <> "proxy" ->
   routeKey (strategyRoute W ctx (globals s') srvOpts) = (Mux.regexpTypePrefix, "/") /\
   (forall p,
      Mux.dispatch (router s') p = Mux.Serve (strategyRoute W ctx (globals s') srvOpts) <->
      Mux.cleanPath p = p /\ slashFirst p = true /\ p <> "/" /\ p <> "/favicon.ico" /\
      (ctx_Bool ctx "enable_stats" = true -> p <> "/stats") /\
      (EnableRPC (globals s') = true -> p <> "/rpc")) /\
   (forall (r : Request) (w : ResponseWriter),
      Mux.cleanPath (URLPath r) = URLPath r -> slashFirst (URLPath r) = true ->
      URLPath r <> "/" -> URLPath r <> "/favicon.ico" ->
      (ctx_Bool ctx "enable_stats" = true -> URLPath r <> "/stats") ->
      (EnableRPC (globals s') = true -> URLPath r <> "/rpc") ->
      Mux.ServeHTTP (router s') r w =
        Mux.routeHandler (strategyRoute W ctx (globals s') srvOpts) r w)).
Proof.
  intros Hrpc Hapi Hproxy Hrun Hin.
  destruct (run_started W ctx srvOpts g out s' Hrun Hin) as [Hg Hr].
  destruct (applyFlags_fixed ctx g) as (Frpc & Fapi & Fproxy & _).
  rewrite Hrpc in Frpc. rewrite Hapi in Fapi. rewrite Hproxy in Fproxy.
  rewrite Hg, Hr. set (g' := applyFlags ctx g) in *. clearbody g'.
  assert (Hserve : forall rt (r : Request) (w : ResponseWriter),
            Mux.dispatch (routeTable W ctx g' srvOpts) (URLPath r) = Mux.Serve rt ->
            Mux.ServeHTTP (routeTable W ctx g' srvOpts) r w = Mux.routeHandler rt r w).
  { intros rt r w H. unfold Mux.ServeHTTP. now rewrite H. }
  split; [| split; [| split]].
  - exists (statsRoutes W ctx ++ fixedRoutes ctx ++ rpcRoutes W g')%list. split.
    + unfold routeTable. now rewrite <- !app_assoc.
    + unfold statsRoutes, fixedRoutes, rpcRoutes.
      destruct (ctx_Bool ctx "enable_stats"), (EnableRPC g'); cbn;
        repeat constructor.
  - intros r w Hn.
    pose proof (dispatch_redirect (routeTable W ctx g' srvOpts) _ Hn) as Hd.
    split; [exact Hd |]. unfold Mux.ServeHTTP. now rewrite Hd.
  - intros Hh.
    assert (Hp : isProxy g' = true).
    { unfold isProxy. destruct Hh as [-> | ->]; reflexivity. }
    assert (Hroute : strategyRoute W ctx g' srvOpts =
              Mux.mkRoute Mux.regexpTypePrefix "/{service:[a-zA-Z0-9]+}"
                (packageHandler W ahttp (apiNamespace g') (theResolver g')
                   (theService ctx g' srvOpts))).
    { unfold strategyRoute, strategyTemplate, strategyHandler. rewrite Hp, Fproxy.
      destruct Hh as [E | E]; rewrite E; reflexivity. }
    assert (Hiff : forall p,
              Mux.dispatch (routeTable W ctx g' srvOpts) p =
                Mux.Serve (strategyRoute W ctx g' srvOpts) <->
              Mux.cleanPath p = p /\ slashAlnum p = true /\ p <> "/favicon.ico" /\
              (ctx_Bool ctx "enable_stats" = true -> p <> "/stats") /\
              (EnableRPC g' = true -> p <> "/rpc")).
    { intros p. rewrite dispatch_serve_iff, (strategy_reached W ctx srvOpts g' p Frpc).
      unfold strategyTemplate. rewrite Hp, Fproxy, matches_prefix_proxy.
      split.
      - intros (Hc & H1 & _ & H3 & H4 & H5). auto.
      - intros (Hc & H1 & H3 & H4 & H5). repeat split; auto.
        now apply slashAlnum_not_root. }
    split; [exact Hroute |]. split; [exact Hiff |].
    intros r w Hc H1 H3 H4 H5.
    rewrite (Hserve (strategyRoute W ctx g' srvOpts)) by (apply Hiff; auto).
    now rewrite Hroute.
  - intros Hh1 Hh2.
    assert (Hp : isProxy g' = false).
    { unfold isProxy. apply String.eqb_neq in Hh1, Hh2. now rewrite Hh1, Hh2. }
    assert (Hiff : forall p,
              Mux.dispatch (routeTable W ctx g' srvOpts) p =
                Mux.Serve (strategyRoute W ctx g' srvOpts) <->
              Mux.cleanPath p = p /\ slashFirst p = true /\ p <> "/" /\
              p <> "/favicon.ico" /\
              (ctx_Bool ctx "enable_stats" = true -> p <> "/stats") /\
              (EnableRPC g' = true -> p <> "/rpc")).
    { intros p. rewrite dispatch_serve_iff, (strategy_reached W ctx srvOpts g' p Frpc).
      unfold strategyTemplate. rewrite Hp, Fapi, matches_prefix_root. reflexivity. }
    split; [| split; [exact Hiff |]].
    + unfold routeKey, strategyRoute, strategyTemplate. cbn. now rewrite Hp, Fapi.
    + intros r w Hc H1 H2 H3 H4 H5.
      apply Hserve. apply Hiff. auto 7.
Qed.

(** The "http" handler of a gateway started with the defaults:
    "/greeter/hello" reaches it, "/greeter//hello" is redirected. *)
Lemma strategy_route_patterns_witness :
  Mux.ServeHTTP (router (snd (run quietWorld httpCli [] initState)))
    (mkRequest "GET" "/greeter/hello") emptyWriter = mkWriter 200 "http" /\
  Mux.dispatch (router (snd (run quietWorld httpCli [] initState)))
    (URLPath (mkRequest "GET" "/greeter//hello")) = Mux.Redirect "/greeter/hello" /\
  Mux.ServeHTTP (router (snd (run quietWorld httpCli [] initState)))
    (mkRequest "GET" "/greeter//hello") emptyWriter = mkWriter 301 "".
Proof.
  destruct (strategy_route_patterns quietWorld httpCli [] initGlobals
              (fst (run quietWorld httpCli [] initState))
              (snd (run quietWorld httpCli [] initState))
              eq_refl eq_refl eq_refl (surjective_pairing _))
    as (_ & Hredirect & Hproxy & _).
  - in_trace.
  - destruct Hproxy as (_ & _ & Hserve); [left; reflexivity |].
    split.
    + apply (Hserve (mkRequest "GET" "/greeter/hello") emptyWriter);
        first [reflexivity | discriminate].
    + apply (Hredirect (mkRequest "GET" "/greeter//hello") emptyWriter).
      discriminate.
Defined.

(** C10 as stated fails: with the "http" handler, the path "/a-b" is
    served by the proxy route although its first segment "a-b" is not
    purely alphanumeric; the pattern is matched as a prefix. *)
Lemma proxy_reached_by_other_segment :
  option_map routeKey
    (Mux.routeFor (router (snd (run quietWorld httpCli [] initState))) "/a-b")
    = Some (Mux.regexpTypePrefix, "/{service:[a-zA-Z0-9]+}") /\
  body (Mux.ServeHTTP (router (snd (run quietWorld httpCli [] initState)))
          (mkRequest "GET" "/a-b") emptyWriter) = "http" /\
  firstSegment "/a-b" = "a-b" /\
  allAlnum (firstSegment "/a-b") = false.
Proof. repeat split; reflexivity. Qed.

(** ** The handler given to the server *)

(** C1: the wrapping loop never indexes outside the slice and leaves, for
    any handler, the fold of the plugin wrappers over the package's
    plugins followed by the global ones, taken from the last to the
    first.  In a started gateway the handler given to the server is that
    fold around the router, so that for plugins registered in the order
    [A; B; C] it is A(B(C(router))): the first-registered is outermost. *)
Theorem plugins_wrap_first_outermost (W : World) (ctx : Context)
    (srvOpts : list MicroOption) (g : Globals) (out : Outcome unit) (s' : State) :
  run W ctx srvOpts (startState g) = (out, s') ->
  In ev_ServerStart (trace s') ->
  (forall h, reverseWrap W h =
             Some (fold_right (fun p k => plugin_Handler p k) h
                     (Plugins W ++ plugin_Plugins W))) /\
  In (ev_ServerHandle "/"
        (fold_right (fun p k => plugin_Handler p k)
           (routerHandler W (ctx_Bool ctx "enable_stats") (router s'))
           (Plugins W ++ plugin_Plugins W)))
     (trace s') /\
  (forall A B C : Plugin,
     (Plugins W ++ plugin_Plugins W)%list = [A; B; C] ->
     In (ev_ServerHandle "/"
           (plugin_Handler A (plugin_Handler B (plugin_Handler C
              (routerHandler W (ctx_Bool ctx "enable_stats") (router s'))))))
        (trace s')).
Proof.
  intros Hrun Hin.
  pose proof (run_started_handle W ctx srvOpts g out s' Hrun Hin) as Hh.
  unfold servedHandler, wrapAll in Hh.
  split; [intros h; apply reverseWrap_total |].
  split; [exact Hh |].
  intros A B C E. rewrite E in Hh. exact Hh.
Qed.

(** Plugins A, B and C around the root route: the body shows A outermost. *)
Lemma plugins_wrap_first_outermost_witness :
  exists h : HttpHandler,
    In (ev_ServerHandle "/" h) (trace (snd (run abcWorld plainCli [] initState))) /\
    h = plugin_Handler (tagPlugin "A")
          (plugin_Handler (tagPlugin "B")
             (plugin_Handler (tagPlugin "C")
                (Mux.ServeHTTP (router (snd (run abcWorld plainCli [] initState)))))) /\
    body (h (mkRequest "GET" "/") emptyWriter) =
      "<A><B><C>" ++ versionJSON "1.2.3" ++ "</C></B></A>".
Proof.
  destruct (plugins_wrap_first_outermost abcWorld plainCli [] initGlobals
              (fst (run abcWorld plainCli [] initState))
              (snd (run abcWorld plainCli [] initState))
              (surjective_pairing _))
    as (_ & _ & Habc).
  - in_trace.
  - eexists. split; [apply (Habc (tagPlugin "A") (tagPlugin "B") (tagPlugin "C"));
                     reflexivity |].
    split; reflexivity.
Defined.

(** With no plugin and the stats wrapper off, the server is given the
    router itself. *)
Lemma served_is_router (W : World) (ctx : Context) (routes : list Mux.Route) :
  Plugins W = [] -> plugin_Plugins W = [] -> ctx_Bool ctx "enable_stats" = false ->
  servedHandler W ctx routes = Mux.ServeHTTP routes.
Proof.
  intros HP HG HS. unfold servedHandler, routerHandler. now rewrite HP, HG, HS.
Qed.

(** * Further properties of [run] and [Commands] *)

(** ** The variables after the flag overrides *)

Section FlagFields.

Variable ctx : Context.
Variable g : Globals.

Ltac fields := unfold applyFlags; cbv zeta;
  repeat
    (unfold whenSet at 1;
     match goal with |- context [nonempty ?s] => destruct (nonempty s) end;
     cbn [Name Address Handler Resolver RPCPath APIPath ProxyPath Namespace
          Type_ HeaderPrefix EnableRPC ACMEProvider ACMEChallengeProvider ACMECA
          setName setAddress setHandler setResolver setEnableRPC
          setACMEProvider setType setNamespace]);
  reflexivity.

Lemma applyFlags_Name :
  Name (applyFlags ctx g) =
  if nonempty (ctx_String ctx "server_name") then ctx_String ctx "server_name" else Name g.
Proof. fields. Qed.

Lemma applyFlags_Address :
  Address (applyFlags ctx g) =
  if nonempty (ctx_String ctx "address") then ctx_String ctx "address" else Address g.
Proof. fields. Qed.

Lemma applyFlags_Resolver :
  Resolver (applyFlags ctx g) =
  if nonempty (ctx_String ctx "resolver") then ctx_String ctx "resolver" else Resolver g.
Proof. fields. Qed.

Lemma applyFlags_HeaderPrefix : HeaderPrefix (applyFlags ctx g) = HeaderPrefix g.
Proof.
  unfold applyFlags; cbv zeta.
  repeat (rewrite whenSet_keep by (intros; reflexivity)); reflexivity.
Qed.

End FlagFields.

Lemma globals_ext (a b : Globals) :
  Name a = Name b -> Address a = Address b -> Handler a = Handler b ->
  Resolver a = Resolver b -> RPCPath a = RPCPath b -> APIPath a = APIPath b ->
  ProxyPath a = ProxyPath b -> Namespace a = Namespace b -> Type_ a = Type_ b ->
  HeaderPrefix a = HeaderPrefix b -> EnableRPC a = EnableRPC b ->
  ACMEProvider a = ACMEProvider b ->
  ACMEChallengeProvider a = ACMEChallengeProvider b -> ACMECA a = ACMECA b ->
  a = b.
Proof. destruct a, b; cbn; intros; subst; reflexivity. Qed.

Lemma nonempty_spec (s : string) : nonempty s = true <-> s <> "".
Proof. destruct s; cbn; split; congruence. Qed.

(** X1: the flag overrides are idempotent: applying the same command
    line to the variables a second time changes nothing, the namespace
    included (its suffix is trimmed from the flag, not from the
    variable). *)
Theorem applyFlags_idempotent (ctx : Context) (g : Globals) :
  applyFlags ctx (applyFlags ctx g) = applyFlags ctx g.
Proof.
  destruct (applyFlags_fixed ctx g) as (F1 & F2 & F3 & F4 & F5).
  destruct (applyFlags_fixed ctx (applyFlags ctx g)) as (G1 & G2 & G3 & G4 & G5).
  apply globals_ext; try congruence.
  - rewrite applyFlags_Name, (applyFlags_Name ctx g). now destruct (nonempty _).
  - rewrite applyFlags_Address, (applyFlags_Address ctx g). now destruct (nonempty _).
  - rewrite applyFlags_Handler, (applyFlags_Handler ctx g). now destruct (nonempty _).
  - rewrite applyFlags_Resolver, (applyFlags_Resolver ctx g). now destruct (nonempty _).
  - rewrite applyFlags_Namespace, (applyFlags_Namespace ctx g), (applyFlags_Type ctx g).
    destruct (nonempty (ctx_String ctx "namespace")),
             (nonempty (ctx_String ctx "type")); reflexivity.
  - rewrite applyFlags_Type, (applyFlags_Type ctx g). now destruct (nonempty _).
  - now rewrite !applyFlags_HeaderPrefix.
  - rewrite applyFlags_EnableRPC, (applyFlags_EnableRPC ctx g). now destruct (nonempty _).
  - rewrite applyFlags_ACMEProvider, (applyFlags_ACMEProvider ctx g).
    now destruct (nonempty _).
Qed.

(** X2: no flag can blank a variable: when the server name, the address,
    the handler, the resolver, the ACME provider and the type are
    non-empty before the overrides, they are non-empty after them, since
    an empty flag value is ignored. *)
Theorem applyFlags_keeps_nonempty (ctx : Context) (g : Globals) :
  Name g <> "" -> Address g <> "" -> Handler g <> "" -> Resolver g <> "" ->
  ACMEProvider g <> "" -> Type_ g <> "" ->
  Name (applyFlags ctx g) <> "" /\ Address (applyFlags ctx g) <> "" /\
  Handler (applyFlags ctx g) <> "" /\ Resolver (applyFlags ctx g) <> "" /\
  ACMEProvider (applyFlags ctx g) <> "" /\ Type_ (applyFlags ctx g) <> "".
Proof.
  intros HN HA HH HR HP HT.
  rewrite applyFlags_Name, applyFlags_Address, applyFlags_Handler, applyFlags_Resolver,
    applyFlags_ACMEProvider, applyFlags_Type.
  repeat split;
    match goal with |- (if nonempty ?s then _ else _) <> _ =>
      destruct (nonempty s) eqn:E; [now apply nonempty_spec | assumption]
    end.
Qed.

Lemma applyFlags_keeps_nonempty_witness :
  Name (applyFlags httpCli initGlobals) <> "" /\
  Address (applyFlags httpCli initGlobals) <> "" /\
  Handler (applyFlags httpCli initGlobals) <> "" /\
  Resolver (applyFlags httpCli initGlobals) <> "" /\
  ACMEProvider (applyFlags httpCli initGlobals) <> "" /\
  Type_ (applyFlags httpCli initGlobals) <> "".
Proof. apply (applyFlags_keeps_nonempty httpCli initGlobals); discriminate. Defined.

(** The namespace is the exception: trimming can leave it empty. *)
Example namespace_can_be_blanked :
  Namespace (applyFlags (cli [("namespace", ".api")] [] "") initGlobals) = "".
Proof. reflexivity. Qed.

(** ** The TLS block, case by case *)

Section TLSCases.

Variable W : World.
Variable ctx : Context.

Lemma tlsOptions_autocert (s : State) :
  ctx_Bool ctx "enable_acme" = true ->
  ACMEProvider (globals s) = "autocert" ->
  tlsOptions W ctx s =
  (Value [server_EnableACME true; server_ACMEHosts (helper_ACMEHosts W ctx);
          server_ACMEProvider autocert_NewProvider], s).
Proof.
  intros Hacme Hprov. unfold tlsOptions, bind, getGlobals.
  rewrite Hacme, Hprov. reflexivity.
Qed.

Lemma tlsOptions_static (s : State) (config : TLSConfig) :
  ctx_Bool ctx "enable_acme" = false -> ctx_Bool ctx "enable_tls" = true ->
  helper_TLSConfig W ctx = inl config ->
  tlsOptions W ctx s = (Value [server_EnableTLS true; server_TLSConfig config], s).
Proof.
  intros Hacme Htls Hc. unfold tlsOptions, bind, getGlobals.
  rewrite Hacme, Htls, Hc. reflexivity.
Qed.

Lemma tlsOptions_error (s : State) (err : string) :
  ctx_Bool ctx "enable_acme" = false -> ctx_Bool ctx "enable_tls" = true ->
  helper_TLSConfig W ctx = inr err ->
  tlsOptions W ctx s =
  (Return, mkState (globals s) (router s) (trace s ++ [fmt_Println err])).
Proof.
  intros Hacme Htls Hc. unfold tlsOptions, bind, getGlobals.
  rewrite Hacme, Htls, Hc. reflexivity.
Qed.

Lemma tlsOptions_plain (s : State) :
  ctx_Bool ctx "enable_acme" = false -> ctx_Bool ctx "enable_tls" = false ->
  tlsOptions W ctx s = (Value [], s).
Proof.
  intros Hacme Htls. unfold tlsOptions, bind, getGlobals.
  rewrite Hacme, Htls. reflexivity.
Qed.

Lemma lifecycleEvents_start : exists rest, lifecycleEvents W = ev_ServerStart :: rest.
Proof.
  unfold lifecycleEvents.
  destruct (api_Start W), (service_Run W), (api_Stop W); eexists; reflexivity.
Qed.

(** When the TLS block returns options, the server is initialised with
    them (and the CORS option) and started. *)
Lemma run_value_events (srvOpts : list MicroOption) (s : State)
    (opts : list ServerOption) :
  tlsOptions W ctx (configuredState W ctx s) = (Value opts, configuredState W ctx s) ->
  In (ev_ServerInit (corsOption ctx opts)) (trace (snd (run W ctx srvOpts s))) /\
  In ev_ServerStart (trace (snd (run W ctx srvOpts s))).
Proof.
  intros Htls. rewrite run_spec, Htls. cbn [snd finishedState trace]. split.
  - apply in_or_app. right. apply in_or_app. left.
    unfold setupEvents. apply in_or_app. right. apply in_or_app. right.
    apply in_or_app. right. cbn. auto.
  - apply in_or_app. right. apply in_or_app. right. apply in_or_app. left.
    destruct lifecycleEvents_start as [rest ->]. now left.
Qed.

End TLSCases.

(** X3: with ACME enabled and the provider "autocert" (the default), the
    server is initialised with ACME on, the ACME hosts and the autocert
    provider, and is started, whatever the environment variables and the
    static TLS settings are. *)
Theorem autocert_needs_no_environment (W : World) (ctx : Context)
    (srvOpts : list MicroOption) (s : State) :
  ctx_Bool ctx "enable_acme" = true ->
  ACMEProvider (applyFlags ctx (globals s)) = "autocert" ->
  In (ev_ServerInit
        (corsOption ctx
           [server_EnableACME true; server_ACMEHosts (helper_ACMEHosts W ctx);
            server_ACMEProvider autocert_NewProvider]))
     (trace (snd (run W ctx srvOpts s))) /\
  In ev_ServerStart (trace (snd (run W ctx srvOpts s))).
Proof.
  intros Hacme Hprov. apply run_value_events.
  now apply tlsOptions_autocert.
Qed.

(** ACME with the default provider in a world without any environment. *)
Lemma autocert_needs_no_environment_witness :
  In (ev_ServerInit
        [server_EnableACME true; server_ACMEHosts ["example.com"];
         server_ACMEProvider autocert_NewProvider])
     (trace (snd (run (demoWorld [] [] [] None None None) acmeCli [] initState))) /\
  In ev_ServerStart
     (trace (snd (run (demoWorld [] [] [] None None None) acmeCli [] initState))).
Proof.
  apply (autocert_needs_no_environment (demoWorld [] [] [] None None None) acmeCli []
           initState); reflexivity.
Defined.

(** X4: ACME takes precedence over static TLS: with ACME enabled,
    [helper.TLSConfig] is not consulted, so [run] behaves the same when
    that helper would fail. *)
Theorem acme_ignores_static_tls (W : World) (ctx : Context)
    (srvOpts : list MicroOption) (s : State) (err : string) :
  ctx_Bool ctx "enable_acme" = true ->
  run (withTLSError W err) ctx srvOpts s = run W ctx srvOpts s.
Proof.
  intros Hacme. rewrite !run_spec.
  assert (E : tlsOptions (withTLSError W err) ctx (configuredState W ctx s) =
              tlsOptions W ctx (configuredState W ctx s)).
  { unfold tlsOptions, bind, getGlobals. rewrite Hacme. reflexivity. }
  change (configuredState (withTLSError W err) ctx s) with (configuredState W ctx s).
  rewrite E.
  destruct (tlsOptions W ctx (configuredState W ctx s)) as [[opts|c| |] s2]; reflexivity.
Qed.

Lemma acme_ignores_static_tls_witness :
  run (withTLSError quietWorld "no certificate") acmeCli [] initState =
  run quietWorld acmeCli [] initState.
Proof.
  apply (acme_ignores_static_tls quietWorld acmeCli [] initState "no certificate").
  reflexivity.
Defined.

(** X5: with ACME off and TLS enabled, an error of [helper.TLSConfig] is
    printed and [run] returns at once (no exit): it has registered no
    route, created no service and no server. *)
Theorem tls_config_error_returns (W : World) (ctx : Context)
    (srvOpts : list MicroOption) (s : State) (err : string) :
  ctx_Bool ctx "enable_acme" = false -> ctx_Bool ctx "enable_tls" = true ->
  helper_TLSConfig W ctx = inr err ->
  run W ctx srvOpts s =
  (Return,
   mkState (applyFlags ctx (globals s)) (router s)
     (trace s ++ log_Init :: pluginInits W ++ [fmt_Println err])).
Proof.
  intros Hacme Htls Herr.
  rewrite run_spec, (tlsOptions_error W ctx _ err Hacme Htls Herr).
  cbn. now rewrite <- app_assoc.
Qed.

Lemma tls_config_error_returns_witness :
  run (withTLSError quietWorld "no certificate") tlsCli [] initState =
  (Return,
   mkState (applyFlags tlsCli initGlobals) [] [log_Init; fmt_Println "no certificate"]).
Proof.
  apply (tls_config_error_returns (withTLSError quietWorld "no certificate") tlsCli []
           initState "no certificate"); reflexivity.
Defined.

(** X6: with ACME off, TLS enabled and a configuration from
    [helper.TLSConfig], the server is initialised with TLS on and that
    configuration, and is started. *)
Theorem static_tls_options (W : World) (ctx : Context) (srvOpts : list MicroOption)
    (s : State) (config : TLSConfig) :
  ctx_Bool ctx "enable_acme" = false -> ctx_Bool ctx "enable_tls" = true ->
  helper_TLSConfig W ctx = inl config ->
  In (ev_ServerInit (corsOption ctx [server_EnableTLS true; server_TLSConfig config]))
     (trace (snd (run W ctx srvOpts s))) /\
  In ev_ServerStart (trace (snd (run W ctx srvOpts s))).
Proof.
  intros Hacme Htls Hc. apply run_value_events.
  now apply tlsOptions_static.
Qed.

Lemma static_tls_options_witness :
  In (ev_ServerInit [server_EnableTLS true; server_TLSConfig (mkTLSConfig ["cert.pem"])])
     (trace (snd (run quietWorld tlsCli [] initState))) /\
  In ev_ServerStart (trace (snd (run quietWorld tlsCli [] initState))).
Proof.
  apply (static_tls_options quietWorld tlsCli [] initState (mkTLSConfig ["cert.pem"]));
    reflexivity.
Defined.

(** ** How [run] leaves, and what its trace holds *)

Section Traces.

Variable W : World.
Variable ctx : Context.
Variable srvOpts : list MicroOption.

Lemma tlsOptions_return_iff (s : State) :
  fst (tlsOptions W ctx s) = Return <->
  ctx_Bool ctx "enable_acme" = false /\ ctx_Bool ctx "enable_tls" = true /\
  exists err, helper_TLSConfig W ctx = inr err.
Proof.
  unfold tlsOptions, certmagicProvider, Fatal, os_Exit, returnFromRun, when, bind,
    getGlobals, emit, ret.
  destruct (ctx_Bool ctx "enable_acme"), (ctx_Bool ctx "enable_tls");
    repeat match goal with
    | |- context [if ?b then _ else _] => destruct b
    | |- context [match ?x with inl _ => _ | inr _ => _ end] => destruct x eqn:?
    end; cbn; split;
    try (intros H; discriminate H);
    try (intros (H1 & H2 & err & H3); discriminate);
    try (intros _; repeat split; eauto).
Qed.

Lemma lifecycleOutcome_value :
  lifecycleOutcome W = Value tt <->
  api_Start W = None /\ service_Run W = None /\ api_Stop W = None.
Proof.
  unfold lifecycleOutcome.
  destruct (api_Start W), (service_Run W), (api_Stop W); split;
    try (intros H; discriminate H); try (intros (H1 & H2 & H3); discriminate); auto.
Qed.

Lemma existsb_pluginInits (p : Event -> bool) :
  (forall n, p (ev_PluginInit n) = false) -> existsb p (pluginInits W) = false.
Proof.
  intros Hp. unfold pluginInits. induction (Plugins W) as [|q qs IH]; cbn; auto.
  now rewrite Hp, IH.
Qed.

Lemma filter_pluginInits (p : Event -> bool) :
  (forall n, p (ev_PluginInit n) = false) -> filter p (pluginInits W) = [].
Proof.
  intros Hp. unfold pluginInits. induction (Plugins W) as [|q qs IH]; cbn; auto.
  now rewrite Hp, IH.
Qed.

(** The whole trace of a run that starts with none: the logger and the
    plugin initialisations, then either one log line of the TLS block or
    the events of the setup, of the lifecycle and of the deferred call. *)
Lemma run_trace (g : Globals) :
  (exists opts,
     tlsOptions W ctx (configuredState W ctx (startState g)) =
       (Value opts, configuredState W ctx (startState g)) /\
     run W ctx srvOpts (startState g) =
       (lifecycleOutcome W,
        finishedState W ctx srvOpts opts (configuredState W ctx (startState g)))) \/
  (exists line,
     logEvent line = true /\
     (fst (run W ctx srvOpts (startState g)) = Exit 1 \/
      fst (run W ctx srvOpts (startState g)) = Return) /\
     snd (run W ctx srvOpts (startState g)) =
       mkState (applyFlags ctx g) [] (log_Init :: pluginInits W ++ [line])).
Proof.
  rewrite run_spec.
  destruct (tlsOptions W ctx (configuredState W ctx (startState g)))
    as [o s2] eqn:Htls.
  pose proof (tlsOptions_frame W ctx _ _ _ Htls) as (Hg & Hr & evs & Htr & Hlog & Hout).
  assert (Es : forall l, evs = l ->
               s2 = mkState (applyFlags ctx g) [] (log_Init :: pluginInits W ++ l)).
  { intros l ->. destruct s2. cbn in Hg, Hr, Htr. now subst. }
  destruct o as [opts|c| |].
  - left. exists opts. subst evs. rewrite (Es [] eq_refl).
    unfold configuredState, startState. cbn [globals router trace app].
    rewrite app_nil_r. auto.
  - right. destruct Hout as (-> & msg & ->). exists (log_Fatal msg).
    rewrite (Es _ eq_refl). cbn. auto.
  - right. destruct Hout as (msg & ->). exists (fmt_Println msg).
    rewrite (Es _ eq_refl). cbn. auto.
  - contradiction.
Qed.

End Traces.

(** X7: [run] leaves in one of three ways and never panics: it returns
    normally exactly when the TLS block gives options and the start, run
    and stop calls all succeed; it returns early exactly when ACME is
    off, TLS is enabled and [helper.TLSConfig] fails; otherwise the
    process exits, and always with status 1. *)
Theorem run_outcomes (W : World) (ctx : Context) (srvOpts : list MicroOption)
    (s : State) :
  fst (run W ctx srvOpts s) <> Panic /\
  (forall c, fst (run W ctx srvOpts s) = Exit c -> c = 1%Z) /\
  (fst (run W ctx srvOpts s) = Return <->
   ctx_Bool ctx "enable_acme" = false /\ ctx_Bool ctx "enable_tls" = true /\
   exists err, helper_TLSConfig W ctx = inr err) /\
  (fst (run W ctx srvOpts s) = Value tt <->
   (exists opts, fst (tlsOptions W ctx (configuredState W ctx s)) = Value opts) /\
   api_Start W = None /\ service_Run W = None /\ api_Stop W = None).
Proof.
  rewrite run_spec.
  pose proof (tlsOptions_return_iff W ctx (configuredState W ctx s)) as Hret.
  pose proof (lifecycleOutcome_value W) as Hval.
  destruct (tlsOptions W ctx (configuredState W ctx s)) as [o s2] eqn:Htls.
  apply tlsOptions_frame in Htls. destruct Htls as (_ & _ & evs & _ & _ & Hout).
  cbn [fst] in *.
  destruct o as [opts|c| |]; cbn [fst].
  - destruct (lifecycleOutcome_cases W) as [E | E]; rewrite E in *.
    + split; [discriminate |]. split; [intros c H; discriminate H |]. split.
      * split; [intros H; discriminate H | intros H; apply Hret in H; discriminate H].
      * split; [intros _ | reflexivity].
        split; [now exists opts | now apply Hval].
    + split; [discriminate |]. split; [intros c H; now inversion H |]. split.
      * split; [intros H; discriminate H | intros H; apply Hret in H; discriminate H].
      * split; [intros H; discriminate H |].
        intros (_ & H). apply Hval in H. discriminate H.
  - destruct Hout as (-> & _).
    split; [discriminate |]. split; [intros c H; now inversion H |]. split.
    + split; [intros H; discriminate H | intros H; apply Hret in H; discriminate H].
    + split; [intros H; discriminate H |].
      intros ((opts & H) & _). discriminate H.
  - split; [discriminate |]. split; [intros c H; discriminate H |]. split.
    + split; [intros _; now apply Hret | reflexivity].
    + split; [intros H; discriminate H |].
      intros ((opts & H) & _). discriminate H.
  - contradiction.
Qed.

(** X8: whatever way [run] leaves, its trace begins with the logger
    initialisation followed by the initialisation of every plugin of the
    package, in registration order and once each, and holds no other
    plugin initialisation: the global plugins are wrapped but not
    initialised here. *)
Theorem package_plugins_initialised_first (W : World) (ctx : Context)
    (srvOpts : list MicroOption) (g : Globals) :
  exists rest,
    trace (snd (run W ctx srvOpts (startState g))) =
      (log_Init :: map (fun p => ev_PluginInit (plugin_String p)) (Plugins W) ++ rest)%list /\
    existsb isPluginInit rest = false.
Proof.
  destruct (run_trace W ctx srvOpts g) as [(opts & _ & ->) | (line & Hl & _ & ->)].
  - unfold finishedState, configuredState, startState.
    cbn [snd trace globals router app].
    eexists. split; [reflexivity |].
    rewrite !existsb_app.
    unfold setupEvents, lifecycleEvents, deferredEvents, lifecycleOutcome.
    destruct (ctx_Bool ctx "enable_stats"), (EnableRPC (applyFlags ctx g)),
      (api_Start W), (service_Run W), (api_Stop W); reflexivity.
  - exists [line]. split; [reflexivity |].
    destruct line; try discriminate; reflexivity.
Qed.

(** X9: a gateway that is started has called the server exactly in this
    order: created with the address and the auth wrapper, initialised
    with the options of the TLS block and of CORS, given the wrapped
    router at "/", started; the stop call follows only when the start and
    the run calls both succeeded.  No server call is made twice. *)
Theorem server_calls_in_order (W : World) (ctx : Context) (srvOpts : list MicroOption)
    (g : Globals) (out : Outcome unit) (s' : State) :
  run W ctx srvOpts (startState g) = (out, s') ->
  In ev_ServerStart (trace s') ->
  exists opts,
    fst (tlsOptions W ctx (configuredState W ctx (startState g))) = Value opts /\
    filter serverEvent (trace s') =
      ([ev_NewServer (Address (globals s'))
          (auth_Wrapper W (theResolver (globals s')) (theNamespaceResolver (globals s')));
        ev_ServerInit (corsOption ctx opts);
        ev_ServerHandle "/" (servedHandler W ctx (router s'));
        ev_ServerStart] ++
       match api_Start W, service_Run W with
       | None, None => [ev_ServerStop]
       | _, _ => []
       end)%list.
Proof.
  intros Hrun Hin.
  destruct (run_trace W ctx srvOpts g) as [(opts & Htls & E) | (line & Hl & _ & E)].
  - rewrite E in Hrun. inversion Hrun; subst out s'. clear Hrun.
    exists opts. rewrite Htls. split; [reflexivity |].
    unfold finishedState, configuredState, startState.
    cbn [trace globals router app].
    cbn [filter serverEvent]. rewrite !filter_app.
    rewrite (filter_pluginInits W serverEvent) by reflexivity.
    unfold setupEvents, lifecycleEvents, deferredEvents, lifecycleOutcome.
    destruct (ctx_Bool ctx "enable_stats"), (EnableRPC (applyFlags ctx g)),
      (api_Start W), (service_Run W), (api_Stop W); reflexivity.
  - rewrite Hrun in E. cbn [snd] in E. subst s'. cbn [trace] in Hin.
    exfalso. destruct Hin as [H | H]; [discriminate |].
    apply in_app_or in H. destruct H as [H | [H | []]].
    + now apply pluginInits_not_started in H.
    + subst line. discriminate.
Qed.

Lemma server_calls_in_order_witness :
  exists opts,
    fst (tlsOptions quietWorld plainCli
           (configuredState quietWorld plainCli (startState initGlobals))) = Value opts /\
    filter serverEvent (trace (snd (run quietWorld plainCli [] initState))) =
      ([ev_NewServer (Address (globals (snd (run quietWorld plainCli [] initState))))
          (auth_Wrapper quietWorld
             (theResolver (globals (snd (run quietWorld plainCli [] initState))))
             (theNamespaceResolver (globals (snd (run quietWorld plainCli [] initState)))));
        ev_ServerInit (corsOption plainCli opts);
        ev_ServerHandle "/"
          (servedHandler quietWorld plainCli
             (router (snd (run quietWorld plainCli [] initState))));
        ev_ServerStart] ++ [ev_ServerStop])%list.
Proof.
  apply (server_calls_in_order quietWorld plainCli [] initGlobals
           (fst (run quietWorld plainCli [] initState))
           (snd (run quietWorld plainCli [] initState))).
  - apply surjective_pairing.
  - in_trace.
Defined.

Lemma in_by_existsb (p : Event -> bool) (e : Event) (tr : list Event) :
  p e = true -> (forall e', p e' = true -> e' = e) ->
  (In e tr <-> existsb p tr = true).
Proof.
  intros He Huniq. rewrite existsb_exists. split.
  - intros H. now exists e.
  - intros (e' & Hin & Hp). now rewrite <- (Huniq e' Hp).
Qed.

(** X10: the stats collector is started exactly when stats are enabled
    and the TLS block did not leave [run], and it is stopped exactly when
    stats are enabled and [run] returns normally: the stop is deferred,
    so a fatal exit of the start, run or stop call skips it. *)
Theorem stats_stopped_only_on_return (W : World) (ctx : Context)
    (srvOpts : list MicroOption) (g : Globals) :
  (In ev_StatsStart (trace (snd (run W ctx srvOpts (startState g)))) <->
   ctx_Bool ctx "enable_stats" = true /\
   In ev_ServerStart (trace (snd (run W ctx srvOpts (startState g))))) /\
  (In ev_StatsStop (trace (snd (run W ctx srvOpts (startState g)))) <->
   ctx_Bool ctx "enable_stats" = true /\
   fst (run W ctx srvOpts (startState g)) = Value tt).
Proof.
  rewrite (in_by_existsb isStatsStart ev_StatsStart),
    (in_by_existsb isServerStart ev_ServerStart),
    (in_by_existsb isStatsStop ev_StatsStop);
    try reflexivity; try (intros [] H; try discriminate H; reflexivity).
  destruct (run_trace W ctx srvOpts g) as [(opts & _ & ->) | (line & Hl & Hout & E)].
  - unfold finishedState, configuredState, startState.
    cbn [fst snd trace globals router app existsb
         isStatsStart isStatsStop isServerStart orb].
    rewrite !existsb_app.
    rewrite (existsb_pluginInits W isStatsStart), (existsb_pluginInits W isServerStart),
      (existsb_pluginInits W isStatsStop) by reflexivity.
    unfold setupEvents, lifecycleEvents, deferredEvents, lifecycleOutcome.
    destruct (ctx_Bool ctx "enable_stats"), (EnableRPC (applyFlags ctx g)),
      (api_Start W), (service_Run W), (api_Stop W); cbn;
      repeat split; intros; try discriminate; try tauto;
      repeat match goal with H : _ /\ _ |- _ => destruct H end; try discriminate.
  - rewrite E. cbn [trace existsb isStatsStart isStatsStop isServerStart orb].
    rewrite !existsb_app.
    rewrite (existsb_pluginInits W isStatsStart), (existsb_pluginInits W isServerStart),
      (existsb_pluginInits W isStatsStop) by reflexivity.
    assert (Hnv : fst (run W ctx srvOpts (startState g)) <> Value tt)
      by (destruct Hout as [Ho | Ho]; rewrite Ho; discriminate).
    destruct line; try discriminate Hl; cbn;
      (split; split; intros H; try discriminate H;
       destruct H as [H1 H2]; try discriminate H2; contradiction).
Qed.

(** ** More on the routes of a started gateway *)

Section MoreRoutes.

Variable W : World.
Variable ctx : Context.
Variable srvOpts : list MicroOption.

Lemma run_started_server (g : Globals) (out : Outcome unit) (s' : State) :
  run W ctx srvOpts (startState g) = (out, s') ->
  In ev_ServerStart (trace s') ->
  In (ev_NewServer (Address (globals s'))
        (auth_Wrapper W (theResolver (globals s')) (theNamespaceResolver (globals s'))))
     (trace s') /\
  In (ev_NewService (serviceOptions ctx (globals s') srvOpts)) (trace s').
Proof.
  intros Hrun Hin. destruct (run_finished W ctx srvOpts g out s' Hrun Hin) as [opts ->].
  cbn [finishedState trace globals]. split.
  - apply in_or_app. right. apply in_or_app. left.
    unfold setupEvents. apply in_or_app. right. apply in_or_app. right.
    apply in_or_app. right. cbn. auto.
  - apply in_or_app. right. apply in_or_app. left.
    unfold setupEvents. apply in_or_app. right. apply in_or_app. left. cbn. auto.
Qed.

Lemma router_ends_with_strategy (g : Globals) :
  exists front,
    routeTable W ctx g srvOpts = (front ++ [strategyRoute W ctx g srvOpts])%list.
Proof.
  exists (statsRoutes W ctx ++ fixedRoutes ctx ++ rpcRoutes W g)%list.
  unfold routeTable. now rewrite <- !app_assoc.
Qed.

Lemma slashAlnum_slashFirst (p : string) : slashAlnum p = true -> slashFirst p = true.
Proof.
  destruct p as [|c [|c' p]]; cbn; try discriminate.
  intros H. now apply andb_true_iff in H.
Qed.

End MoreRoutes.

(** X11: in a started gateway a request to "/favicon.ico", whatever its
    method and whatever handler is selected, is served by the route
    registered for it, which writes nothing: the response is left as it
    was. *)
Theorem favicon_writes_nothing (W : World) (ctx : Context) (srvOpts : list MicroOption)
    (g : Globals) (out : Outcome unit) (s' : State) (r : Request) (w : ResponseWriter) :
  run W ctx srvOpts (startState g) = (out, s') ->
  In ev_ServerStart (trace s') ->
  URLPath r = "/favicon.ico" ->
  Mux.ServeHTTP (router s') r w = w.
Proof.
  intros Hrun Hin Hpath.
  destruct (run_started W ctx srvOpts g out s' Hrun Hin) as [_ Hr].
  rewrite ServeHTTP_canonical by (now rewrite Hpath).
  rewrite Hr, routeFor_table, Hpath.
  rewrite andb_false_r. reflexivity.
Qed.

(** Under the proxy pattern, which would match it as well. *)
Lemma favicon_writes_nothing_witness :
  Mux.ServeHTTP (router (snd (run quietWorld httpCli [] initState)))
    (mkRequest "GET" "/favicon.ico") emptyWriter = emptyWriter.
Proof.
  apply (favicon_writes_nothing quietWorld httpCli [] initGlobals
           (fst (run quietWorld httpCli [] initState))
           (snd (run quietWorld httpCli [] initState))
           (mkRequest "GET" "/favicon.ico") emptyWriter).
  - apply surjective_pairing.
  - in_trace.
  - reflexivity.
Defined.

(** X12: in a started gateway (default path variables) a request whose
    path is not canonical, in particular one that does not begin with a
    slash, is answered with a redirect (status 301 on a response not yet
    begun) and matched against no route.  Under the "http" or "proxy"
    handler a canonical path, other than "/", that does not begin with a
    slash and an alphanumeric character matches no route: the router
    answers "404 page not found" itself (status 404 on a response not yet
    begun) and no handler is called. *)
Theorem unmatched_path_not_found (W : World) (ctx : Context) (srvOpts : list MicroOption)
    (g : Globals) (out : Outcome unit) (s' : State) (r : Request) (w : ResponseWriter) :
  RPCPath g = "/rpc" -> APIPath g = "/" -> ProxyPath g = "/{service:[a-zA-Z0-9]+}" ->
  run W ctx srvOpts (startState g) = (out, s') ->
  In ev_ServerStart (trace s') ->
  (Mux.cleanPath (URLPath r) <> URLPath r ->
   Mux.dispatch (router s') (URLPath r) = Mux.Redirect (Mux.cleanPath (URLPath r)) /\
   Mux.ServeHTTP (router s') r w =
     (if Nat.eqb (status w) 0 then mkWriter 301 (body w) else w)) /\
  (slashFirst (URLPath r) = false -> Mux.cleanPath (URLPath r) <> URLPath r) /\
  (Handler (globals s') = "http" \/ Handler (globals s') = "proxy" ->
   Mux.cleanPath (URLPath r) = URLPath r ->
   slashAlnum (URLPath r) = false -> URLPath r <> "/" ->
   Mux.dispatch (router s') (URLPath r) = Mux.NoRoute /\
   Mux.ServeHTTP (router s') r w =
     mkWriter (if Nat.eqb (status w) 0 then 404 else status w)
       (body w ++ "404 page not found" ++ String "010"%char "")).
Proof.
  intros Hrpc Hapi Hproxy Hrun Hin.
  destruct (run_started W ctx srvOpts g out s' Hrun Hin) as [Hg Hr].
  destruct (applyFlags_fixed ctx g) as (Frpc & Fapi & Fproxy & _).
  rewrite Hrpc in Frpc. rewrite Hapi in Fapi. rewrite Hproxy in Fproxy.
  rewrite Hg, Hr. set (g' := applyFlags ctx g) in *. clearbody g'.
  set (p := URLPath r) in *.
  split; [| split].
  - intros Hn.
    pose proof (dispatch_redirect (routeTable W ctx g' srvOpts) p Hn) as Hd.
    split; [exact Hd |]. unfold Mux.ServeHTTP. fold p. now rewrite Hd.
  - apply not_slash_not_canonical.
  - intros Hh Hc Hsf Hroot.
    assert (Hstrategy : Mux.matches Mux.regexpTypePrefix (strategyTemplate g') p = false).
    { unfold strategyTemplate, isProxy.
      destruct Hh as [H | H]; rewrite H; cbn; now rewrite Fproxy, matches_prefix_proxy. }
    assert (Hnone : Mux.routeFor (routeTable W ctx g' srvOpts) p = None).
    { rewrite routeFor_table, Frpc, matches_rpc, Hstrategy.
      destruct (String.eqb_spec "/stats" p) as [E | _];
        [rewrite <- E in Hsf; discriminate |].
      destruct (String.eqb_spec "/" p) as [E | _]; [now symmetry in E |].
      destruct (String.eqb_spec "/favicon.ico" p) as [E | _];
        [rewrite <- E in Hsf; discriminate |].
      destruct (String.eqb_spec "/rpc" p) as [E | _];
        [rewrite <- E in Hsf; discriminate |].
      now rewrite !andb_false_r. }
    assert (Hd : Mux.dispatch (routeTable W ctx g' srvOpts) p = Mux.NoRoute).
    { unfold Mux.dispatch. now rewrite Hc, String.eqb_refl, Hnone. }
    split; [exact Hd |].
    unfold Mux.ServeHTTP. fold p. rewrite Hd.
    unfold Mux.notFound, w_Write, w_WriteHeader.
    destruct (Nat.eqb (status w) 0) eqn:E; cbn [status body]; [reflexivity |].
    now rewrite E.
Qed.

(** "/_health" under the proxy handler is not found; "foo" is redirected. *)
Lemma unmatched_path_not_found_witness :
  Mux.ServeHTTP (router (snd (run quietWorld httpCli [] initState)))
    (mkRequest "GET" "/_health") emptyWriter =
    mkWriter 404 ("404 page not found" ++ String "010"%char "") /\
  Mux.ServeHTTP (router (snd (run quietWorld httpCli [] initState)))
    (mkRequest "GET" "foo") emptyWriter = mkWriter 301 "".
Proof.
  split.
  - destruct (unmatched_path_not_found quietWorld httpCli [] initGlobals
                (fst (run quietWorld httpCli [] initState))
                (snd (run quietWorld httpCli [] initState))
                (mkRequest "GET" "/_health") emptyWriter
                eq_refl eq_refl eq_refl (surjective_pairing _))
      as (_ & _ & Hnone).
    + in_trace.
    + apply Hnone; first [left; reflexivity | reflexivity | discriminate].
  - destruct (unmatched_path_not_found quietWorld httpCli [] initGlobals
                (fst (run quietWorld httpCli [] initState))
                (snd (run quietWorld httpCli [] initState))
                (mkRequest "GET" "foo") emptyWriter
                eq_refl eq_refl eq_refl (surjective_pairing _))
      as (Hredirect & _ & _).
    + in_trace.
    + apply Hredirect. discriminate.
Defined.

(** ** The selected handler and resolver *)

(** X13: in a started gateway whose handler name is "rpc", "api",
    "event", "http" or "web" (or "proxy", served by the http package), the
    last route holds the handler made by that package with the api
    namespace Namespace+"."+Type, a registry router carrying the
    package's handler name, and the client and registry of the one
    service; the resolver inside that router is the very resolver given
    to the auth wrapper of the server. *)
Theorem named_handler_from_its_package (W : World) (ctx : Context)
    (srvOpts : list MicroOption) (g : Globals) (out : Outcome unit) (s' : State)
    (pkg : HandlerPackage) :
  run W ctx srvOpts (startState g) = (out, s') ->
  In ev_ServerStart (trace s') ->
  Handler (globals s') = handlerName pkg \/ (Handler (globals s') = "proxy" /\ pkg = ahttp) ->
  exists (front : list Mux.Route) (rr : ApiResolver) (nsr : NamespaceResolver)
         (service : Service),
    nsr = namespace_NewResolver (Type_ (globals s')) (Namespace (globals s')) /\
    rr = chooseResolver (globals s') (mkResolverOptions nsr (Handler (globals s'))) /\
    service = micro_NewService (serviceOptions ctx (globals s') srvOpts) /\
    router s' =
      (front ++
       [Mux.mkRoute Mux.regexpTypePrefix
          (match pkg with ahttp => ProxyPath (globals s') | _ => APIPath (globals s') end)
          (NewHandler W pkg
             (mkHandlerOptions (Namespace (globals s') ++ "." ++ Type_ (globals s'))
                (regRouter_NewRouter (Some (handlerName pkg)) rr service) service))])%list /\
    In (ev_NewServer (Address (globals s')) (auth_Wrapper W rr nsr)) (trace s') /\
    In (ev_NewService (serviceOptions ctx (globals s') srvOpts)) (trace s').
Proof.
  intros Hrun Hin Hname.
  destruct (run_started W ctx srvOpts g out s' Hrun Hin) as [Hg Hr].
  destruct (run_started_server W ctx srvOpts g out s' Hrun Hin) as [Hsrv Hsvc].
  destruct (router_ends_with_strategy W ctx srvOpts (globals s')) as [front Hfront].
  rewrite <- Hg in Hr. rewrite Hfront in Hr.
  exists front, (theResolver (globals s')), (theNamespaceResolver (globals s')),
    (theService ctx (globals s') srvOpts).
  repeat split; try assumption.
  rewrite Hr. do 2 f_equal.
  unfold strategyRoute, strategyTemplate, strategyHandler, isProxy, packageHandler,
    apiNamespace.
  destruct Hname as [H | [H ->]]; [destruct pkg |]; cbn [handlerName] in *;
    rewrite H; reflexivity.
Qed.

Lemma named_handler_from_its_package_witness :
  exists (front : list Mux.Route) (rr : ApiResolver) (nsr : NamespaceResolver)
         (service : Service),
    nsr = namespace_NewResolver "api" "go.micro" /\
    rr = path_NewResolver (mkResolverOptions nsr "web") /\
    service = micro_NewService [micro_Name "go.micro.api"] /\
    router (snd (run quietWorld webCli [] initState)) =
      (front ++
       [Mux.mkRoute Mux.regexpTypePrefix "/"
          (NewHandler quietWorld web
             (mkHandlerOptions "go.micro.api"
                (regRouter_NewRouter (Some "web") rr service) service))])%list /\
    In (ev_NewServer ":8080" (auth_Wrapper quietWorld rr nsr))
       (trace (snd (run quietWorld webCli [] initState))) /\
    In (ev_NewService [micro_Name "go.micro.api"])
       (trace (snd (run quietWorld webCli [] initState))).
Proof.
  apply (named_handler_from_its_package quietWorld webCli [] initGlobals
           (fst (run quietWorld webCli [] initState))
           (snd (run quietWorld webCli [] initState)) web).
  - apply surjective_pairing.
  - in_trace.
  - left. reflexivity.
Defined.

(** X14: a handler name that is none of "rpc", "api", "event", "http",
    "proxy" and "web" is not an error: the started gateway serves the
    meta handler under the root prefix, with a registry router that names
    no handler.  This is the case of the default name "meta" and of any
    misspelt name. *)
Theorem unknown_handler_is_meta (W : World) (ctx : Context)
    (srvOpts : list MicroOption) (g : Globals) (out : Outcome unit) (s' : State) :
  run W ctx srvOpts (startState g) = (out, s') ->
  In ev_ServerStart (trace s') ->
  Handler (globals s') <> "rpc" -> Handler (globals s') <> "api" ->
  Handler (globals s') <> "event" -> Handler (globals s') <> "http" ->
  Handler (globals s') <> "proxy" -> Handler (globals s') <> "web" ->
  exists front : list Mux.Route,
    router s' =
      (front ++
       [Mux.mkRoute Mux.regexpTypePrefix (APIPath (globals s'))
          (handler_Meta W
             (micro_NewService (serviceOptions ctx (globals s') srvOpts))
             (regRouter_NewRouter None (theResolver (globals s'))
                (micro_NewService (serviceOptions ctx (globals s') srvOpts)))
             (namespace_NewResolver (Type_ (globals s')) (Namespace (globals s'))))])%list.
Proof.
  intros Hrun Hin H1 H2 H3 H4 H5 H6.
  destruct (run_started W ctx srvOpts g out s' Hrun Hin) as [Hg Hr].
  destruct (router_ends_with_strategy W ctx srvOpts (globals s')) as [front Hfront].
  rewrite <- Hg in Hr. rewrite Hfront in Hr.
  exists front. rewrite Hr. do 2 f_equal.
  apply String.eqb_neq in H1, H2, H3, H4, H5, H6.
  unfold strategyRoute, strategyTemplate, strategyHandler, isProxy.
  rewrite H1, H2, H3, H4, H5, H6. reflexivity.
Qed.

(** The misspelt name "rcp". *)
Lemma unknown_handler_is_meta_witness :
  exists front : list Mux.Route,
    router (snd (run quietWorld typoCli [] initState)) =
      (front ++
       [Mux.mkRoute Mux.regexpTypePrefix "/"
          (handler_Meta quietWorld
             (micro_NewService [micro_Name "go.micro.api"])
             (regRouter_NewRouter None
                (theResolver (globals (snd (run quietWorld typoCli [] initState))))
                (micro_NewService [micro_Name "go.micro.api"]))
             (namespace_NewResolver "api" "go.micro"))])%list.
Proof.
  apply (unknown_handler_is_meta quietWorld typoCli [] initGlobals
           (fst (run quietWorld typoCli [] initState))
           (snd (run quietWorld typoCli [] initState))).
  - apply surjective_pairing.
  - in_trace.
  - vm_compute; discriminate.
  - vm_compute; discriminate.
  - vm_compute; discriminate.
  - vm_compute; discriminate.
  - vm_compute; discriminate.
  - vm_compute; discriminate.
Defined.

(** X15: the resolver given to the auth wrapper of a started gateway is
    the host, path or grpc resolver for these three names and the micro
    resolver for every other name; whichever it is, it carries the
    namespace resolver of Type and Namespace and the handler name. *)
Theorem resolver_falls_back_to_micro (W : World) (ctx : Context)
    (srvOpts : list MicroOption) (g : Globals) (out : Outcome unit) (s' : State) :
  run W ctx srvOpts (startState g) = (out, s') ->
  In ev_ServerStart (trace s') ->
  exists make : ResolverOptions -> ApiResolver,
    In (ev_NewServer (Address (globals s'))
          (auth_Wrapper W
             (make (mkResolverOptions
                      (namespace_NewResolver (Type_ (globals s')) (Namespace (globals s')))
                      (Handler (globals s'))))
             (namespace_NewResolver (Type_ (globals s')) (Namespace (globals s')))))
       (trace s') /\
    (Resolver (globals s') = "host" -> make = host_NewResolver) /\
    (Resolver (globals s') = "path" -> make = path_NewResolver) /\
    (Resolver (globals s') = "grpc" -> make = grpc_NewResolver) /\
    (Resolver (globals s') <> "host" -> Resolver (globals s') <> "path" ->
     Resolver (globals s') <> "grpc" -> make = rrmicro_NewResolver).
Proof.
  intros Hrun Hin.
  destruct (run_started_server W ctx srvOpts g out s' Hrun Hin) as [Hsrv _].
  unfold theResolver, theNamespaceResolver, chooseResolver in Hsrv.
  destruct (String.eqb_spec (Resolver (globals s')) "host") as [Eh | Nh];
    [exists host_NewResolver; repeat split; auto; intros; congruence |].
  destruct (String.eqb_spec (Resolver (globals s')) "path") as [Ep | Np];
    [exists path_NewResolver; repeat split; auto; intros; congruence |].
  destruct (String.eqb_spec (Resolver (globals s')) "grpc") as [Eg | Ng];
    [exists grpc_NewResolver; repeat split; auto; intros; congruence |].
  exists rrmicro_NewResolver; repeat split; auto; intros; congruence.
Qed.

Lemma resolver_falls_back_to_micro_witness :
  exists make : ResolverOptions -> ApiResolver,
    In (ev_NewServer (Address (globals (snd (run quietWorld plainCli [] initState))))
          (auth_Wrapper quietWorld
             (make (mkResolverOptions
                      (namespace_NewResolver
                         (Type_ (globals (snd (run quietWorld plainCli [] initState))))
                         (Namespace (globals (snd (run quietWorld plainCli [] initState)))))
                      (Handler (globals (snd (run quietWorld plainCli [] initState))))))
             (namespace_NewResolver
                (Type_ (globals (snd (run quietWorld plainCli [] initState))))
                (Namespace (globals (snd (run quietWorld plainCli [] initState)))))))
       (trace (snd (run quietWorld plainCli [] initState))) /\
    (Resolver (globals (snd (run quietWorld plainCli [] initState))) = "host" ->
     make = host_NewResolver) /\
    (Resolver (globals (snd (run quietWorld plainCli [] initState))) = "path" ->
     make = path_NewResolver) /\
    (Resolver (globals (snd (run quietWorld plainCli [] initState))) = "grpc" ->
     make = grpc_NewResolver) /\
    (Resolver (globals (snd (run quietWorld plainCli [] initState))) <> "host" ->
     Resolver (globals (snd (run quietWorld plainCli [] initState))) <> "path" ->
     Resolver (globals (snd (run quietWorld plainCli [] initState))) <> "grpc" ->
     make = rrmicro_NewResolver).
Proof.
  apply (resolver_falls_back_to_micro quietWorld plainCli [] initGlobals
           (fst (run quietWorld plainCli [] initState))
           (snd (run quietWorld plainCli [] initState))).
  - apply surjective_pairing.
  - in_trace.
Defined.

(** ** The options of the backend service *)

Lemma wrap64_small (z : Z) :
  (- 2 ^ 63 <= z < 2 ^ 63)%Z -> wrap64 z = z.
Proof. intros H. unfold wrap64. rewrite Z.mod_small; lia. Qed.

Lemma wrap64_range (z : Z) : (- 2 ^ 63 <= wrap64 z < 2 ^ 63)%Z.
Proof.
  unfold wrap64.
  pose proof (Z.mod_pos_bound (z + 2 ^ 63) (2 ^ 64) ltac:(lia)). lia.
Qed.

(** X16: the service is made with the caller's options first and the
    name next.  A register_ttl of n seconds with 0 < n <= 9223372036 adds
    a TTL of exactly n * 10^9 nanoseconds; n <= 0 adds no TTL; a larger n
    overflows the 64-bit duration, so the TTL that is added lies below
    2^63 nanoseconds and is not n seconds. *)
Theorem register_ttl_seconds (ctx : Context) (g : Globals)
    (srvOpts : list MicroOption) (n : Z) :
  ctx_Int ctx "register_ttl" = n ->
  (exists rest,
     serviceOptions ctx g srvOpts = (srvOpts ++ micro_Name (Name g) :: rest)%list) /\
  ((0 < n <= 9223372036)%Z ->
   In (micro_RegisterTTL (n * 1000000000)%Z) (serviceOptions ctx g srvOpts)) /\
  ((n <= 0)%Z ->
   forall d, In (micro_RegisterTTL d) (serviceOptions ctx g srvOpts) ->
             In (micro_RegisterTTL d) srvOpts) /\
  ((9223372036 < n < 2 ^ 63)%Z ->
   exists d, In (micro_RegisterTTL d) (serviceOptions ctx g srvOpts) /\
             (d < 2 ^ 63 <= n * 1000000000)%Z).
Proof.
  intros Hn. unfold serviceOptions. cbv zeta. rewrite Hn.
  split; [| split; [| split]].
  - destruct (0 <? n)%Z, (0 <? ctx_Int ctx "register_interval")%Z;
      rewrite <- ?app_assoc; cbn [app]; eexists; reflexivity.
  - intros Hr. assert (E : (0 <? n)%Z = true) by (apply Z.ltb_lt; lia). rewrite E.
    assert (Ew : wrap64 (n * Second) = (n * 1000000000)%Z)
      by (apply wrap64_small; unfold Second; lia).
    rewrite Ew.
    destruct (0 <? ctx_Int ctx "register_interval")%Z;
      rewrite !in_app_iff; cbn; tauto.
  - intros Hr d. assert (E : (0 <? n)%Z = false) by (apply Z.ltb_ge; lia). rewrite E.
    destruct (0 <? ctx_Int ctx "register_interval")%Z;
      rewrite !in_app_iff; cbn; intros H;
      repeat match goal with H : _ \/ _ |- _ => destruct H end;
      try assumption; try discriminate; contradiction.
  - intros Hr. assert (E : (0 <? n)%Z = true) by (apply Z.ltb_lt; lia). rewrite E.
    exists (wrap64 (n * Second)). split.
    + destruct (0 <? ctx_Int ctx "register_interval")%Z;
        rewrite !in_app_iff; cbn; tauto.
    + pose proof (wrap64_range (n * Second)). unfold Second in *. lia.
Qed.

(** A register_ttl of 30 seconds. *)
Lemma register_ttl_seconds_witness :
  In (micro_RegisterTTL 30000000000) (serviceOptions ttlCli initGlobals [micro_Caller 0]).
Proof.
  destruct (register_ttl_seconds ttlCli initGlobals [micro_Caller 0] 30 eq_refl)
    as (_ & H & _).
  apply H. lia.
Defined.

(** One second more than fits: the TTL comes out negative. *)
Example register_ttl_overflow :
  wrap64 (9223372037 * Second) = (-9223372036709551616)%Z.
Proof. reflexivity. Qed.

(** ** The command table *)

Section CommandTable.

Variable C : PluginCLI.

Lemma addPlugin_appends (command : Command) (p : Plugin) :
  addPlugin C command p =
  mkCommand (commandName command) (commandUsage command) (commandAction command)
    (commandFlags command ++ plugin_Flags C p)
    (commandSubcommands command ++ plugin_Commands C p).
Proof.
  unfold addPlugin. destruct command as [n u a fl sub]. cbn.
  destruct (plugin_Commands C p) as [|c cs], (plugin_Flags C p) as [|f fs];
    cbn; rewrite ?app_nil_r; reflexivity.
Qed.

Lemma fold_addPlugin (ps : list Plugin) (command : Command) :
  fold_left (addPlugin C) ps command =
  mkCommand (commandName command) (commandUsage command) (commandAction command)
    (commandFlags command ++ flat_map (plugin_Flags C) ps)
    (commandSubcommands command ++ flat_map (plugin_Commands C) ps).
Proof.
  revert command. induction ps as [|p ps IH]; intros command; cbn [fold_left flat_map].
  - rewrite !app_nil_r. now destruct command.
  - rewrite IH, addPlugin_appends. cbn. now rewrite <- !app_assoc.
Qed.

End CommandTable.

(** X17: [Commands] returns exactly one command, named "api", whose
    action is [run] with the options given to [Commands]; its flags are
    the seven flags of the package, whose names are distinct, followed by
    the flags of the package's plugins in registration order, and its
    subcommands are the commands of these plugins in the same order; a
    plugin without flags or commands adds nothing. *)
Theorem Commands_table (W : World) (C : PluginCLI) (options : list MicroOption) :
  exists command,
    Commands W C options = [command] /\
    commandName command = "api" /\
    (forall ctx, commandAction command ctx = run W ctx options) /\
    commandFlags command = (apiFlags ++ flat_map (plugin_Flags C) (Plugins W))%list /\
    commandSubcommands command = flat_map (plugin_Commands C) (Plugins W) /\
    length apiFlags = 7 /\ NoDup (map flagName apiFlags).
Proof.
  unfold Commands. cbv zeta. rewrite fold_addPlugin. cbn.
  eexists. split; [reflexivity |]. cbn.
  repeat split; try reflexivity.
  repeat constructor; cbn; intros H;
    repeat (destruct H as [H | H]; [discriminate H |]); contradiction.
Qed.

(** Plugin A of the package adds a flag and a command; the global plugins
    B and C are not asked. *)
Example Commands_with_plugins :
  map (fun c => (commandName c, map flagName (commandFlags c),
                 map commandName (commandSubcommands c)))
    (Commands abcWorld demoCLI []) =
  [("api",
    ["address"; "handler"; "namespace"; "type"; "resolver"; "enable_rpc"; "enable_cors";
     "a_flag"],
    ["a"])].
Proof. reflexivity. Qed.

(** ** The challenge client and the stats route *)

(** X18: with ACME enabled, provider "certmagic", challenge provider
    "cloudflare" and the three environment variables set, an error of the
    cloudflare challenge client constructor, which is given the API token
    as both auth and zone token, is fatal: its message is logged and
    [run] exits with status 1, with no route and no server event. *)
Theorem challenge_client_error_fatal (W : World) (ctx : Context)
    (srvOpts : list MicroOption) (s : State) (tok acc kv err : string) :
  ctx_Bool ctx "enable_acme" = true ->
  ACMEProvider (applyFlags ctx (globals s)) = "certmagic" ->
  ACMEChallengeProvider (globals s) = "cloudflare" ->
  os_Getenv W "CF_API_TOKEN" = tok -> tok <> "" ->
  os_Getenv W "CF_ACCOUNT_ID" = acc -> acc <> "" ->
  os_Getenv W "KV_NAMESPACE_ID" = kv -> kv <> "" ->
  cloudflare_NewDNSProviderConfig W (mkCloudflareConfig tok tok) = inr err ->
  run W ctx srvOpts s =
    (Exit 1,
     mkState (applyFlags ctx (globals s)) (router s)
       (trace s ++ log_Init :: pluginInits W ++ [log_Fatal err])) /\
  existsb serverEvent (log_Init :: pluginInits W ++ [log_Fatal err]) = false.
Proof.
  intros Hacme Hprov Hch Htok Htok' Hacc Hacc' Hkv Hkv' Hcp.
  apply run_fatal_in_tls.
  destruct (applyFlags_fixed ctx (globals s)) as (_ & _ & _ & Fch & _).
  unfold tlsOptions, bind, getGlobals.
  cbn [globals configuredState router trace]. rewrite Hacme, Hprov. cbn.
  unfold certmagicProvider, bind, getGlobals, when.
  cbn [globals]. rewrite Fch, Hch, Htok, Hacc, Hkv, Hcp.
  destruct tok; [congruence |]. destruct acc; [congruence |]. destruct kv; [congruence |].
  reflexivity.
Qed.

Lemma challenge_client_error_fatal_witness :
  run (withChallengeError quietWorld "invalid token") certmagicCli [] initState =
    (Exit 1,
     mkState (applyFlags certmagicCli initGlobals) []
       [log_Init; log_Fatal "invalid token"]) /\
  existsb serverEvent [log_Init; log_Fatal "invalid token"] = false.
Proof.
  apply (challenge_client_error_fatal (withChallengeError quietWorld "invalid token")
           certmagicCli [] initState "token" "account" "kv" "invalid token");
    first [reflexivity | discriminate].
Defined.

(** X19: in a started gateway (default path variables), when stats are
    enabled "/stats" is served by the stats handler and the server is
    given the plugins wrapped around the stats wrapper of the router;
    when they are not, "/stats" goes to the route of the selected handler
    and the plugins are wrapped around the router itself. *)
Theorem stats_route_when_enabled (W : World) (ctx : Context)
    (srvOpts : list MicroOption) (g : Globals) (out : Outcome unit) (s' : State) :
  RPCPath g = "/rpc" -> APIPath g = "/" -> ProxyPath g = "/{service:[a-zA-Z0-9]+}" ->
  run W ctx srvOpts (startState g) = (out, s') ->
  In ev_ServerStart (trace s') ->
  (ctx_Bool ctx "enable_stats" = true ->
   Mux.routeFor (router s') "/stats" =
     Some (Mux.mkRoute Mux.regexpTypePath "/stats" (stats_StatsHandler W)) /\
   In (ev_ServerHandle "/"
         (fold_right (fun p k => plugin_Handler p k)
            (stats_ServeHTTP W (Mux.ServeHTTP (router s')))
            (Plugins W ++ plugin_Plugins W)))
      (trace s')) /\
  (ctx_Bool ctx "enable_stats" = false ->
   Mux.routeFor (router s') "/stats" = Some (strategyRoute W ctx (globals s') srvOpts) /\
   In (ev_ServerHandle "/"
         (fold_right (fun p k => plugin_Handler p k)
            (Mux.ServeHTTP (router s'))
            (Plugins W ++ plugin_Plugins W)))
      (trace s')).
Proof.
  intros Hrpc Hapi Hproxy Hrun Hin.
  destruct (run_started W ctx srvOpts g out s' Hrun Hin) as [Hg Hr].
  pose proof (run_started_handle W ctx srvOpts g out s' Hrun Hin) as Hh.
  unfold servedHandler, wrapAll, routerHandler in Hh.
  destruct (applyFlags_fixed ctx g) as (Frpc & Fapi & Fproxy & _).
  rewrite Hrpc in Frpc. rewrite Hapi in Fapi. rewrite Hproxy in Fproxy.
  split; intros Hs; rewrite Hs in Hh; (split; [| exact Hh]).
  - rewrite Hr, routeFor_table, Hs. reflexivity.
  - rewrite Hg, Hr, routeFor_table, Hs, Frpc, matches_rpc.
    assert (Hm : Mux.matches Mux.regexpTypePrefix
                   (strategyTemplate (applyFlags ctx g)) "/stats" = true).
    { unfold strategyTemplate. rewrite Fapi, Fproxy.
      destruct (isProxy (applyFlags ctx g)); reflexivity. }
    rewrite Hm. cbn. now rewrite andb_false_r.
Qed.

Lemma stats_route_when_enabled_witness :
  Mux.routeFor (router (snd (run quietWorld statsCli [] initState))) "/stats" =
    Some (Mux.mkRoute Mux.regexpTypePath "/stats" (stats_StatsHandler quietWorld)) /\
  In (ev_ServerHandle "/"
        (fold_right (fun p k => plugin_Handler p k)
           (stats_ServeHTTP quietWorld
              (Mux.ServeHTTP (router (snd (run quietWorld statsCli [] initState)))))
           (Plugins quietWorld ++ plugin_Plugins quietWorld)))
     (trace (snd (run quietWorld statsCli [] initState))).
Proof.
  destruct (stats_route_when_enabled quietWorld statsCli [] initGlobals
              (fst (run quietWorld statsCli [] initState))
              (snd (run quietWorld statsCli [] initState))
              eq_refl eq_refl eq_refl (surjective_pairing _))
    as [Hon _].
  - in_trace.
  - apply Hon. reflexivity.
Defined.
